(** * OverwriteFS: the overwrite-or-touch workflow of a hosted Feature Service

    A shallow embedding of [src/OverwriteFS/OverwriteFS.py]: the function
    [overwriteFeatureService] and its nested helper [touchItem].

    The Python function talks to collaborators it does not implement (the
    catalog items, the layer-collection manager, the file system, the network
    and the interpreter's own library).  Their answers are inputs of the
    model: every call returns a value or raises, and every call made is
    written to a trace, so that "no overwrite call is made" is a statement
    about the trace of a run. *)

From Stdlib Require Import List String Ascii ZArith Bool Lia DecimalString.
Import ListNotations.
Local Open Scope string_scope.
Local Open Scope Z_scope.

Set Warnings "-register-all".

(** ** Python values *)

Module Py.

(** The values that travel through the workflow: results of SDK calls, JSON
    properties of a service, fields of the outcome.  Dictionaries are keyed by
    strings, as JSON objects are; a key occurs at most once in a well-formed
    dictionary and [dict_lookup] reads its first binding. *)
Inductive pyval : Type :=
| PNone
| PBool (b : bool)
| PInt (z : Z)
| PStr (s : string)
| PList (l : list pyval)
| PDict (d : list (string * pyval)).

(** [bool(v)]: the truth value of [v]. *)
Definition truthy (v : pyval) : bool :=
  match v with
  | PNone => false
  | PBool b => b
  | PInt z => negb (z =? 0)
  | PStr s => negb (String.eqb s "")
  | PList l => match l with [] => false | _ => true end
  | PDict d => match d with [] => false | _ => true end
  end.

(** [v == True]: [bool] is a subclass of [int], so [1 == True] holds too. *)
Definition eq_True (v : pyval) : bool :=
  match v with
  | PBool b => b
  | PInt z => z =? 1
  | _ => false
  end.

(** [isinstance(v, dict)]. *)
Definition is_dict (v : pyval) : bool :=
  match v with PDict _ => true | _ => false end.

Fixpoint dict_lookup {A : Type} (k : string) (d : list (string * A)) : option A :=
  match d with
  | [] => None
  | (k', v) :: d' => if String.eqb k k' then Some v else dict_lookup k d'
  end.

(** [d[k] = v] on a dictionary: an existing key keeps its place. *)
Fixpoint dict_set {A : Type} (k : string) (v : A) (d : list (string * A))
  : list (string * A) :=
  match d with
  | [] => [(k, v)]
  | (k', v') :: d' =>
      if String.eqb k k' then (k, v) :: d' else (k', v') :: dict_set k v d'
  end.

(** [dict(pairs)]: a later pair with the same key replaces the earlier one. *)
Definition dict_of_pairs {A : Type} (pairs : list (string * A))
  : list (string * A) :=
  fold_left (fun d kv => dict_set (fst kv) (snd kv) d) pairs [].

(** [k in v] for a string key [k]; on the values that are not containers the
    operator raises, which the callers below never reach: they test
    [is_dict] first. *)
Definition has_key (k : string) (v : pyval) : bool :=
  match v with
  | PDict d => match dict_lookup k d with Some _ => true | None => false end
  | _ => false
  end.

(** [v[k]] for a dictionary that has the key. *)
Definition item_at (k : string) (v : pyval) : pyval :=
  match v with
  | PDict d => match dict_lookup k d with Some x => x | None => PNone end
  | _ => PNone
  end.

End Py.
Import Py.

(** ** Strings *)

Module Str.

Definition nl_char : ascii := "010"%char.
Definition nl : string := String nl_char "".

(** ASCII case folding.  [str.lower] folds more than ASCII, but no character
    outside ASCII folds to a letter of the marker searched below. *)
Definition lower_char (c : ascii) : ascii :=
  let n := nat_of_ascii c in
  if (Nat.leb 65 n && Nat.leb n 90)%bool then ascii_of_nat (n + 32) else c.

Fixpoint lower (s : string) : string :=
  match s with
  | "" => ""
  | String c r => String (lower_char c) (lower r)
  end.

(** [s.startswith(sub)]. *)
Fixpoint starts_with (sub s : string) : bool :=
  match sub, s with
  | "", _ => true
  | String a sub', String b s' => (Ascii.eqb a b && starts_with sub' s')%bool
  | String _ _, "" => false
  end.

(** [sub in s]. *)
Fixpoint contains (sub s : string) : bool :=
  if starts_with sub s then true
  else match s with
       | "" => false
       | String _ r => contains sub r
       end.

(** [s.replace(old, new)] for a one-character [old] and [new]. *)
Fixpoint replace_char (old new : ascii) (s : string) : string :=
  match s with
  | "" => ""
  | String c r =>
      String (if Ascii.eqb c old then new else c) (replace_char old new r)
  end.

(** [s.split(":")[0]]: what stands before the first colon. *)
Fixpoint before_colon (s : string) : string :=
  match s with
  | "" => ""
  | String c r => if Ascii.eqb c ":" then "" else String c (before_colon r)
  end.

(** [s.startswith("/")] and [s.endswith("/")]. *)
Definition starts_with_slash (s : string) : bool :=
  match s with String c _ => Ascii.eqb c "/" | "" => false end.

Fixpoint ends_with_slash (s : string) : bool :=
  match s with
  | "" => false
  | String c "" => Ascii.eqb c "/"
  | String _ r => ends_with_slash r
  end.

(** [os.path.join(a, b)], POSIX flavour ([posixpath]): the separator is the
    slash.  The run only hands the joined path on to the file system and to
    the download. *)
Definition os_path_join (a b : string) : string :=
  if starts_with_slash b then b
  else if (String.eqb a "" || ends_with_slash a)%bool then a ++ b
  else a ++ "/" ++ b.

(** [os.path.split(p)[-1]], POSIX flavour ([posixpath]): what follows the
    last slash. *)
Fixpoint split_tail_from (acc p : string) : string :=
  match p with
  | "" => acc
  | String c r =>
      if Ascii.eqb c "/" then split_tail_from "" r
      else split_tail_from (acc ++ String c "") r
  end.

Definition os_path_split_tail (p : string) : string := split_tail_from "" p.

Fixpoint In_string (c : ascii) (s : string) : Prop :=
  match s with
  | "" => False
  | String c' r => c = c' \/ In_string c r
  end.

End Str.
Import Str.

(** ** The collaborators *)

(** What an external call answers: a value, or an [Exception] given by its
    [str()], which is all the handlers of the source look at. *)
Inductive call (A : Type) : Type :=
| Returns (a : A)
| Raises (e : string).
Arguments Returns {A} a.
Arguments Raises {A} e.

(** A catalog item handle ([arcgis.gis.Item]): its attributes, what
    [item.update()] answers and what [item.related_items(kind)] answers.
    [item_name] is [None] or a string. *)
Inductive Item : Type := mkItem {
  item_id : string;
  item_title : string;
  item_type : string;
  item_name : option string;
  item_update : call pyval;
  item_related_items : string -> call (list Item)
}.

(** [FeatureLayerCollection.fromitem(item).manager]: the service's JSON
    properties and what [manager.overwrite(path)] answers. *)
Record Manager : Type := mkManager {
  properties : list (string * pyval);
  overwrite : string -> call pyval
}.

(** A [datetime] without time zone, as seconds since the epoch. *)
Definition datetime : Type := Z.

(** The interpreter's library, the SDK entry point, the file system and the
    network, as one invocation sees them. *)
Record World : Type := mkWorld {
  py_str : pyval -> string;                    (* str(v), as '{}'.format(v) *)
  strftime_gmt : datetime -> string;           (* d.strftime("%a, %d %b %Y %H:%M:%S GMT") *)
  strptime_gmt : string -> call datetime;      (* datetime.strptime(s, same format) *)
  elapsed_time : string;                       (* str(datetime.now() - start) *)
  gettempdir : string;                         (* tempfile.gettempdir() *)
  os_path_exists : string -> bool;
  os_stat_mtime : string -> call Z;            (* int(os.stat(p).st_mtime) *)
  fromitem_manager : Item -> call Manager;
  urlopen_headers : string -> call (list (string * string));
                                               (* urlopen(u).info()._headers *)
  urlretrieve : string -> string -> call string (* urlretrieve(u, p)[0] *)
}.

(** ** The outcome and the trace *)

(** One entry of [outcome["items"]]. *)
Record ActionRecord : Type := mkRecord {
  rec_id : string;
  rec_title : string;
  rec_itemType : string;
  rec_action : pyval;
  rec_result : pyval
}.

(** The dictionary the function builds and returns. *)
Record Outcome : Type := mkOutcome {
  success : pyval;
  items : list ActionRecord
}.

(** What a run does, in order: the calls it makes on its collaborators, the
    lines it prints and its assignments to [outcome["success"]]. *)
Inductive event : Type :=
| EvPrint (line : string)
| EvRelatedItems (id kind : string)
| EvFromItem (id : string)
| EvItemUpdate (id : string)
| EvOverwrite (path : string)
| EvPathExists (path : string)
| EvStat (path : string)
| EvUrlOpen (url : string)
| EvUrlRetrieve (url path : string)
| EvSetSuccess (v : pyval).

Definition is_overwrite (e : event) : bool :=
  match e with EvOverwrite _ => true | _ => false end.

Definition is_item_update (e : event) : bool :=
  match e with EvItemUpdate _ => true | _ => false end.

Definition is_related_items (e : event) : bool :=
  match e with EvRelatedItems _ _ => true | _ => false end.

Definition is_url_retrieve (e : event) : bool :=
  match e with EvUrlRetrieve _ _ => true | _ => false end.

(** The calls that reach the catalog: relationship queries, the manager
    lookup, item updates and the overwrite. *)
Definition is_catalog_call (e : event) : bool :=
  match e with
  | EvRelatedItems _ _ | EvFromItem _ | EvItemUpdate _ | EvOverwrite _ => true
  | _ => false
  end.

(** The steps that alter the catalog. *)
Definition is_destructive (e : event) : bool :=
  (is_overwrite e || is_item_update e)%bool.

(** ** Control flow *)

Record State : Type := mkState {
  st_outcome : Outcome;
  st_trace : list event
}.

(** How a block of statements ends: it runs to its end, an exception is on
    its way up, or [return outcome] was executed. *)
Inductive completion (A : Type) : Type :=
| Normal (a : A)
| Raised (e : string)
| Returned (o : Outcome).
Arguments Normal {A} a.
Arguments Raised {A} e.
Arguments Returned {A} o.

Definition M (A : Type) : Type := State -> completion A * State.

Definition ret {A : Type} (a : A) : M A := fun s => (Normal a, s).

Definition bind {A B : Type} (m : M A) (k : A -> M B) : M B :=
  fun s =>
    match m s with
    | (Normal a, s') => k a s'
    | (Raised e, s') => (Raised e, s')
    | (Returned o, s') => (Returned o, s')
    end.

Notation "x <- m ;; k" := (bind m (fun x => k))
  (at level 61, m at next level, right associativity).
Notation "m ;;; k" := (bind m (fun _ => k))
  (at level 61, right associativity).

(** [raise Exception(...)], the exception given by its [str()]. *)
Definition raise {A : Type} (e : string) : M A := fun s => (Raised e, s).

(** [try: body  except Exception as e: handler(e)]: a [return] in the body
    leaves the function, past the handler. *)
Definition try_except {A : Type} (body : M A) (handler : string -> M A) : M A :=
  fun s =>
    match body s with
    | (Raised e, s') => handler e s'
    | r => r
    end.

Definition log (e : event) : M unit :=
  fun s => (Normal tt, mkState (st_outcome s) (st_trace s ++ [e])).

(** A call on a collaborator: logged, then its answer. *)
Definition invoke {A : Type} (e : event) (c : call A) : M A :=
  log e ;;;
  match c with
  | Returns a => ret a
  | Raises msg => raise msg
  end.

(** The answer of a library function that touches nothing. *)
Definition lift_call {A : Type} (c : call A) : M A :=
  match c with
  | Returns a => ret a
  | Raises msg => raise msg
  end.

Definition print (line : string) : M unit := log (EvPrint line).

Definition when (b : bool) (m : M unit) : M unit := if b then m else ret tt.

(** [outcome["items"].append(r)]. *)
Definition append_item (r : ActionRecord) : M unit :=
  fun s =>
    (Normal tt,
     mkState (mkOutcome (success (st_outcome s)) (items (st_outcome s) ++ [r]))
             (st_trace s)).

(** [outcome["success"] = v]. *)
Definition set_success (v : pyval) : M unit :=
  fun s =>
    (Normal tt,
     mkState (mkOutcome v (items (st_outcome s)))
             (st_trace s ++ [EvSetSuccess v])).

Definition get_success : M pyval :=
  fun s => (Normal (success (st_outcome s)), s).

(** [return outcome]. *)
Definition return_outcome {A : Type} : M A :=
  fun s => (Returned (st_outcome s), s).

(** [for x in xs: body(x)]. *)
Fixpoint for_each {A : Type} (xs : list A) (body : A -> M unit) : M unit :=
  match xs with
  | [] => ret tt
  | x :: xs' => body x ;;; for_each xs' body
  end.

(** ** The program *)

Module OverwriteFS.

(** The name of a value's type, as the interpreter's error messages give it. *)
Definition type_name (v : pyval) : string :=
  match v with
  | PNone => "NoneType"
  | PBool _ => "bool"
  | PInt _ => "int"
  | PStr _ => "str"
  | PList _ => "list"
  | PDict _ => "dict"
  end.

(** [v.get(k, default)]: defined on dictionaries, an [AttributeError]
    elsewhere. *)
Definition get_or (k : string) (default : pyval) (v : pyval) : call pyval :=
  match v with
  | PDict d =>
      Returns (match dict_lookup k d with Some x => x | None => default end)
  | _ => Raises ("'" ++ type_name v ++ "' object has no attribute 'get'")
  end.

(** [v[0]]. *)
Definition first_of (v : pyval) : call pyval :=
  match v with
  | PList (x :: _) => Returns x
  | PList [] => Raises "list index out of range"
  | PStr (String c _) => Returns (PStr (String c ""))
  | PStr "" => Raises "string index out of range"
  | PDict _ => Raises "0"
  | _ => Raises ("'" ++ type_name v ++ "' object is not subscriptable")
  end.

(** [datetime.datetime.utcfromtimestamp(t)]: defined for the years 1 to 9999.
    The error it raises otherwise reaches the caller unformatted, so only the
    fact of raising is kept. *)
Definition utcfromtimestamp (t : Z) : call datetime :=
  if ((-62135596800 <=? t) && (t <=? 253402300799))%bool then Returns t
  else Raises "timestamp out of range".

(** [int(v / 1000)]: true division, then truncation toward zero; exact
    integer arithmetic stands for the floating-point quotient. *)
Definition int_div_1000 (v : pyval) : call Z :=
  match v with
  | PInt n => Returns (Z.quot n 1000)
  | PBool b => Returns 0
  | _ => Raises ("unsupported operand type(s) for /: '" ++ type_name v
                 ++ "' and 'int'")
  end.

Definition bind_call {A B : Type} (c : call A) (k : A -> call B) : call B :=
  match c with
  | Returns a => k a
  | Raises e => Raises e
  end.

(** Lines 113-117: the last edit of the first layer, [None] standing for the
    [0] the source uses when there is none. *)
Definition serviceLastModified (props : list (string * pyval))
  : call (option datetime) :=
  let layers :=
    match dict_lookup "layers" props with Some x => x | None => PList [] end in
  bind_call
    (if negb (truthy layers) then Returns (PInt 0)
     else bind_call (first_of layers) (fun layer =>
          bind_call (get_or "editingInfo" (PDict []) layer) (fun info =>
          get_or "lastEditDate" (PInt 0) info)))
    (fun lastEditDate =>
       if negb (truthy lastEditDate) then Returns None
       else bind_call (int_div_1000 lastEditDate) (fun t =>
            bind_call (utcfromtimestamp t) (fun d => Returns (Some d)))).

(** [updateFile.split(":")[0].lower() in ["ftp", "http", "https"]]. *)
Definition is_url (updateFile : string) : bool :=
  let scheme := lower (before_colon updateFile) in
  (String.eqb scheme "ftp" || String.eqb scheme "http"
   || String.eqb scheme "https")%bool.

(** The dictionary appended to [outcome["items"]] for [item]. *)
Definition record_of (item : Item) (action result : pyval) : ActionRecord :=
  mkRecord (item_id item) (item_title item) (item_type item) action result.

(** Lines 73 and 210: the message formatted from the exception. *)
Definition failure_text (e : string) : string :=
  "Failed, Outcome: '" ++ e ++ "'".

(** Lines 74 and 211: the text recorded for a failed call. *)
Definition failure_status (e : string) : string :=
  let status := failure_text e in
  if negb (contains "error code" (lower status)) then status
  else replace_char nl_char " " status.

(** Lines 57-77. *)
Definition touchItem (w : World) (verbose : bool)
    (item : Item) (message : string) : M bool :=
  when verbose (print message) ;;;
  status <-
    try_except
      (status <- invoke (EvItemUpdate (item_id item)) (item_update item) ;;
       if negb (eq_True status) then raise (py_str w status)
       else
         when verbose (print " - Success!") ;;;
         ret status)
      (fun e =>
         when verbose
           (print (" * Failed to Touch details for Item Id: '" ++ item_id item
                   ++ "', Outcome: '" ++ e ++ "'")) ;;;
         ret (PStr (failure_status e))) ;;
  append_item (record_of item (PStr "touch") status) ;;;
  ret (eq_True status).

(** Lines 95-97: the name of the last associated data item. *)
Definition original_filename (dataItems : list Item) : option string :=
  fold_left (fun _ dataItem => item_name dataItem) dataItems (Some "").

(** [not outputFile]. *)
Definition no_filename (outputFile : option string) : bool :=
  match outputFile with
  | None => true
  | Some s => String.eqb s ""
  end.

Definition filename_text (outputFile : option string) : string :=
  match outputFile with Some s => s | None => "" end.

Definition http_date (w : World) (d : option datetime) : string :=
  match d with Some t => strftime_gmt w t | None => "N/A" end.

(** Lines 126-181: fetch a remote update source unless it is not newer than
    what the service holds; the value is the path of the downloaded file. *)
Definition downloadWebData (w : World) (verbose : bool) (item : Item)
    (updateFile originalFile : string)
    (serviceModified : option datetime) : M string :=
  let outputFile := os_path_join (gettempdir w) originalFile in
  found <- (log (EvPathExists outputFile) ;;; ret (os_path_exists w outputFile)) ;;
  fileLastModified <-
    (if negb found then ret None
     else
       t <- invoke (EvStat outputFile) (os_stat_mtime w outputFile) ;;
       d <- lift_call (utcfromtimestamp t) ;;
       ret (Some d)) ;;
  let lastModified :=
    match serviceModified with
    | Some _ => serviceModified
    | None => fileLastModified
    end in
  try_except
    (when verbose (print (nl ++ "Accessing URL...")) ;;;
     pairs <- invoke (EvUrlOpen updateFile) (urlopen_headers w updateFile) ;;
     let headers := dict_of_pairs pairs in
     when verbose
       (print (" - Download to: '" ++ outputFile ++ "', Last Modified: "
               ++ http_date w fileLastModified) ;;;
        print (nl ++ "Web Headers:") ;;;
        for_each headers
          (fun kv => print (" - " ++ fst kv ++ ": " ++ snd kv))) ;;;
     try_except
       (match lastModified, dict_lookup "Last-Modified" headers with
        | Some reference, Some header =>
            remote <- lift_call (strptime_gmt w header) ;;
            if remote <=? reference then
              let status := "No Change in URL Data" in
              when verbose (print (nl ++ " * " ++ status ++ "!")) ;;;
              append_item (record_of item (PStr "download") (PStr status)) ;;;
              return_outcome
            else ret tt
        | _, _ => ret tt
        end)
       (fun e =>
          when verbose
            (print (" * Issue Ignored * But, unable to compare 'Last-Modified' Dates, Error: '"
                    ++ e ++ "'"))) ;;;
     when verbose (print (nl ++ "Downloading Data...")) ;;;
     invoke (EvUrlRetrieve updateFile outputFile)
            (urlretrieve w updateFile outputFile))
    (fun e =>
       let status := "Failed to Download data from url, Outcome: '" ++ e ++ "'" in
       when verbose (print (" * " ++ status)) ;;;
       append_item (record_of item (PStr "download") (PStr status)) ;;;
       set_success (PBool false) ;;;
       return_outcome).

(** Line 200: what counts as a successful answer of [manager.overwrite]. *)
Definition overwrite_ok (status : pyval) : bool :=
  (truthy status && is_dict status && has_key "success" status
   && truthy (item_at "success" status))%bool.

(** Lines 192-214: the overwrite itself and its record. *)
Definition performOverwrite (w : World) (verbose : bool) (item : Item)
    (manager : Manager) (updateFile : string) : M unit :=
  when verbose (print (nl ++ "Performing Overwrite...")) ;;;
  status <-
    try_except
      (status <- invoke (EvOverwrite updateFile) (overwrite manager updateFile) ;;
       if negb (overwrite_ok status) then raise (py_str w status)
       else
         when verbose
           (print (" - Success! Elapsed Time: " ++ elapsed_time w)) ;;;
         ret (PBool true))
      (fun e =>
         when verbose
           (print (" * Failed to Update Item, Id: '" ++ item_id item
                   ++ "', Outcome: '" ++ e ++ "'")) ;;;
         ret (PStr (failure_status e))) ;;
  append_item (record_of item (PStr "update") status) ;;;
  set_success (PBool (eq_True status)).

(** Lines 108-214: download and/or update from a supplied source. *)
Definition updateFromSource (w : World) (verbose : bool) (item : Item)
    (updateFile originalFile : string) : M unit :=
  manager <- invoke (EvFromItem (item_id item)) (fromitem_manager w item) ;;
  serviceModified <- lift_call (serviceLastModified (properties manager)) ;;
  when verbose
    (match serviceModified with
     | Some d => print (" - Service Last Modified: " ++ strftime_gmt w d)
     | None => ret tt
     end) ;;;
  source <-
    (if is_url updateFile then
       downloadWebData w verbose item updateFile originalFile serviceModified
     else if negb (String.eqb (os_path_split_tail updateFile)
                              (os_path_split_tail originalFile)) then
       append_item
         (record_of item (PStr "verify")
            (PStr ("Update Filename '" ++ updateFile
                   ++ "' does NOT match Original Filename used to Publish Service: '"
                   ++ originalFile ++ "'"))) ;;;
       set_success (PBool false) ;;;
       return_outcome
     else ret updateFile) ;;
  performOverwrite w verbose item manager source.

(** Line 227: the message passed along with a view. *)
Definition view_message (view : Item) : string :=
  nl ++ "Touching details for related View: '" ++ item_title view ++ "'".

(** Lines 225-227: touch the views of the service. *)
Definition touchViews (w : World) (verbose : bool) (item : Item) : M unit :=
  views <- invoke (EvRelatedItems (item_id item) "Service2Service")
                  (item_related_items item "Service2Service") ;;
  for_each views
    (fun view => touchItem w verbose view (view_message view) ;;; ret tt).

(** [if updateFile:] on [None] or a string. *)
Definition supplied (updateFile : option string) : bool :=
  negb (no_filename updateFile).

(** Lines 88-220: verification and the primary action, which is the update
    from the supplied source or, without one, the touch of the item itself. *)
Definition primaryAction (w : World) (item : Item) (updateFile : option string)
    (touchItems verbose : bool) : M unit :=
  if negb (String.eqb (item_type item) "Feature Service") then
    append_item
      (record_of item (PStr "verify")
         (PStr "Item Type is NOT a 'Feature Service'")) ;;;
    set_success (PBool false)
  else
    dataItems <- invoke (EvRelatedItems (item_id item) "Service2Data")
                        (item_related_items item "Service2Data") ;;
    let outputFile := original_filename dataItems in
    if no_filename outputFile then
      append_item
        (record_of item (PStr "verify")
           (PStr "Missing Associated Service Data Item or datafile Item 'name'")) ;;;
      set_success (PBool false) ;;;
      return_outcome
    else if supplied updateFile then
      updateFromSource w verbose item
        (filename_text updateFile) (filename_text outputFile)
    else if touchItems then
      touched <- touchItem w verbose item (nl ++ "Touching Item details...") ;;
      set_success (PBool touched)
    else
      append_item (record_of item PNone PNone).

(** Lines 225-227: the cascade to the views, and its guard. *)
Definition cascade (w : World) (item : Item) (touchItems verbose : bool)
  : M unit :=
  overall <- get_success ;;
  when (touchItems && eq_True overall) (touchViews w verbose item).

(** Lines 83-229: the statements of [overwriteFeatureService]; the last one
    is [return outcome], so the block never runs to its end. *)
Definition body (w : World) (item : Item) (updateFile : option string)
    (touchItems verbose : bool) : M Empty_set :=
  primaryAction w item updateFile touchItems verbose ;;;
  cascade w item touchItems verbose ;;;
  return_outcome.

(** The state a call starts from: [outcome = {"success": None, "items": []}]
    and nothing done yet. *)
Definition initial : State := mkState (mkOutcome PNone []) [].

(** What a call of the function gives its caller. *)
Inductive result : Type :=
| Result (outcome : Outcome)
| Exception (e : string).

(** [overwriteFeatureService(item, updateFile, touchItems, verbose)], with
    the trace of the run. *)
Definition overwriteFeatureService (w : World) (item : Item)
    (updateFile : option string) (touchItems verbose : bool)
  : result * list event :=
  let run := body w item updateFile touchItems verbose initial in
  (match fst run with
   | Returned o => Result o
   | Raised e => Exception e
   | Normal never => match never with end
   end,
   st_trace (snd run)).

End OverwriteFS.
Import OverwriteFS.

(** ** The script

    Lines 231-321: what the file does when it is run as a program.  The
    login and the profile store belong to the SDK and to the machine; the
    script sees them through the calls below. *)

Module Script.

(** A connection ([arcgis.GIS]): [gis._username], [gis.url], the pair
    [gis.users.me.username], [gis.users.me.fullName], and what
    [gis.content.get(id)] answers ([None] when there is no such item). *)
Record Gis : Type := mkGis {
  gis_username : option string;
  gis_url : string;
  gis_me : call (string * string);
  content_get : string -> call (option Item)
}.

(** The SDK and the machine, as one run of the script sees them. *)
Record Host : Type := mkHost {
  script_file : string;                        (* __file__ *)
  import_arcgis : call unit;                   (* import arcgis *)
  arcgis_version : string;                     (* arcgis.__version__ *)
  has_gis_password_function : bool;
      (* hasattr(arcgis.GIS, "_securely_get_password") *)
  anonymous_gis : call unit;                   (* arcgis.GIS() *)
  has_profile_manager : bool;
      (* hasattr(arcgis.gis, "_impl") and hasattr(arcgis.gis._impl, "_profile") *)
  new_profile_manager : call unit;             (* ProfileManager() *)
  home_directory : string;                     (* os.path.expanduser("~") *)
  os_path_isfile : string -> bool;
  profile_username : string -> string -> call (option string);
      (* the "username" option of the profile in the configuration file
         read from the path, None when the profile has none *)
  securely_get_password : string -> call (option string);
  login_with_profile : string -> call Gis;     (* arcgis.GIS(profile=profile) *)
  login_with_pro : call Gis                    (* arcgis.GIS("pro") *)
}.

(** What a run of the script does, in order; [ScFunction] wraps what
    [overwriteFeatureService] does. *)
Inductive script_event : Type :=
| ScPrint (line : string)
| ScPrintNoNewline (text : string)
| ScPathExists (path : string)
| ScStat (path : string)
| ScImport
| ScAnonymousGis
| ScProfileManager
| ScIsFile (path : string)
| ScReadProfile (path profile : string)
| ScGetPassword (profile : string)
| ScLogin (profile : string)
| ScLoginPro
| ScIdentity
| ScContentGet (id : string)
| ScFunction (e : event).

(** How a block of the script ends: it runs on, [exit(message)] was
    called, or an exception nobody catches is on its way out. *)
Inductive step (A : Type) : Type :=
| Continue (a : A)
| Exit (message : string)
| Uncaught (e : string).
Arguments Continue {A} a.
Arguments Exit {A} message.
Arguments Uncaught {A} e.

Definition Run (A : Type) : Type :=
  list script_event -> step A * list script_event.

Definition pure {A : Type} (a : A) : Run A := fun tr => (Continue a, tr).

Definition and_then {A B : Type} (m : Run A) (k : A -> Run B) : Run B :=
  fun tr =>
    match m tr with
    | (Continue a, tr') => k a tr'
    | (Exit message, tr') => (Exit message, tr')
    | (Uncaught e, tr') => (Uncaught e, tr')
    end.

Notation "x <~ m ;; k" := (and_then m (fun x => k))
  (at level 61, m at next level, right associativity).
Notation "m ~> k" := (and_then m (fun _ => k))
  (at level 61, right associativity).

Definition emit (e : script_event) : Run unit :=
  fun tr => (Continue tt, (tr ++ [e])%list).

Definition say (line : string) : Run unit := emit (ScPrint line).

Definition exit {A : Type} (message : string) : Run A :=
  fun tr => (Exit message, tr).

Definition uncaught {A : Type} (e : string) : Run A :=
  fun tr => (Uncaught e, tr).

Definition answer {A : Type} (c : call A) : Run A :=
  match c with
  | Returns a => pure a
  | Raises e => uncaught e
  end.

(** A call on the SDK or the machine: logged, then its answer. *)
Definition ask {A : Type} (e : script_event) (c : call A) : Run A :=
  emit e ~> answer c.

Definition bel : string := String "007" "".
Definition double_quote : string := String "034" "".

(** [v == False]. *)
Definition eq_False (v : pyval) : bool :=
  match v with
  | PBool b => negb b
  | PInt z => z =? 0
  | _ => false
  end.

(** The three states of [updateExists]: [True], [False] and [None]. *)
Definition is_True (b : option bool) : bool :=
  match b with Some true => true | _ => false end.
Definition is_False (b : option bool) : bool :=
  match b with Some false => true | _ => false end.
Definition is_None (b : option bool) : bool :=
  match b with None => true | _ => false end.

(** Lines 238-246. *)
Definition usage (h : Host) {A : Type} : Run A :=
  say (nl ++ "v1.4.4" ++ " Usage: Python " ++ script_file h
       ++ " <profile> <item> <title> [<filename>[, <url>]]") ~>
  say (nl ++ "   <profile>: (required) Stored Python API user Profile to connect with.") ~>
  say "              Specify 'Pro' to leverage active ArcGIS Pro connection, also requires Arcpy!" ~>
  say "      <item>: (required) Id of Feature Service Item to update or touch." ~>
  say "     <title>: (required) Title of Item, to verify id matches correct item." ~>
  say "  <filename>: (optional) File path and/or name, or URL, to overwrite Service data with." ~>
  say "                         Default: None, only touch Item and Views to refresh last update date." ~>
  exit (nl ++ bel ++ " * ERROR * Insufficient Input Parameters, please review 'Usage'!").

(** Line 257: the two values formatted into the "Upload Filename" line. *)
Definition upload_banner (w : World) (updateFile : option string)
    (updateExists : option bool) (fileLastModified : option datetime)
  : call (string * string) :=
  if is_True updateExists then
    match fileLastModified with
    | Some d =>
        Returns (filename_text updateFile,
                 ", Last Modified: " ++ strftime_gmt w d)
    | None => Raises "'int' object has no attribute 'strftime'"
    end
  else if (supplied updateFile && is_None updateExists)%bool then
    (if is_False updateExists
     then Returns (filename_text updateFile, " (NOT Found!)")
     else Returns (filename_text updateFile, " (From URL!)"))
  else Returns ("None, Touch item & views only!", "").

(** Lines 269-298: the login with a stored profile; the value is the
    connection bound to [gis], when one is. *)
Definition login_profile (h : Host) (profile : string) : Run (option Gis) :=
  getPassword <~
    (if has_gis_password_function h then
       ask ScAnonymousGis (anonymous_gis h) ~> pure true
     else if has_profile_manager h then
       ask ScProfileManager (new_profile_manager h) ~> pure true
     else
       say (" - Cannot check password for Python API v" ++ arcgis_version h
            ++ ", unable to securely get password!") ~>
       pure false) ;;
  if getPassword : bool then
    let gis_cfg_file_path := home_directory h ++ "/.arcgisprofile" in
    found <~ (emit (ScIsFile gis_cfg_file_path) ~>
              pure (os_path_isfile h gis_cfg_file_path)) ;;
    (if (found && negb (String.eqb profile ""))%bool then
       username <~ ask (ScReadProfile gis_cfg_file_path profile)
                       (profile_username h gis_cfg_file_path profile) ;;
       if negb (no_filename username) then
         password <~ ask (ScGetPassword profile)
                         (securely_get_password h profile) ;;
         match password with
         | None =>
             exit (nl ++ bel ++ " * ERROR * Password missing for user '"
                   ++ filename_text username ++ "' in Profile '" ++ profile
                   ++ "'!")
         | Some _ => pure tt
         end
       else pure tt
     else pure tt) ~>
    say "Accessing ArcGIS Online/Enterprise..." ~>
    gis <~ ask (ScLogin profile) (login_with_profile h profile) ;;
    if no_filename (gis_username gis) then
      exit (nl ++ bel ++ " * ERROR * Login failed, please verify Profile!")
    else pure (Some gis)
  else pure None.

(** Lines 299-302: the login through the desktop session. *)
Definition login_pro (h : Host) : Run (option Gis) :=
  say "Accessing ArcGIS Online/Enterprise using Pro..." ~>
  gis <~ ask ScLoginPro (login_with_pro h) ;;
  me <~ ask ScIdentity (gis_me gis) ;;
  say (" - Logged in with user: '" ++ fst me ++ " (" ++ snd me ++ ")', On: '"
       ++ gis_url gis ++ "'") ~>
  pure (Some gis).

(** Lines 319-321: the call of the function and the report of a failure. *)
Definition run_function (w : World) (item : Item) (updateFile : option string)
  : Run unit :=
  fun tr =>
    let run := overwriteFeatureService w item updateFile true true in
    let tr' := (tr ++ map ScFunction (snd run))%list in
    match fst run with
    | Exception e => (Uncaught e, tr')
    | Result outcome =>
        if eq_False (success outcome) then
          match items outcome with
          | [] => (Uncaught "list index out of range", tr')
          | first :: _ =>
              match rec_result first with
              | PStr text => (Exit (nl ++ bel ++ " * ERROR * " ++ text), tr')
              | other =>
                  (Uncaught ("can only concatenate str (not " ++ double_quote
                             ++ type_name other ++ double_quote ++ ") to str"),
                   tr')
              end
          end
        else (Continue tt, tr')
    end.

(** Lines 231-321, for [sys.argv = argv]. *)
Definition script (w : World) (h : Host) (argv : list string) : Run unit :=
  (if (List.length argv <? 4)%nat then usage h else pure tt) ~>
  let profile := nth 1 argv "" in
  let itemId := nth 2 argv "" in
  let itemTitle := nth 3 argv "" in
  source <~
    (if (List.length argv <? 5)%nat then pure (None, Some false)
     else
       let given := nth 4 argv "" in
       if negb (is_url given) then
         emit (ScPathExists given) ~>
         pure (Some given, Some (os_path_exists w given))
       else pure (Some given, None)) ;;
  let updateFile : option string := fst source in
  let updateExists : option bool := snd source in
  fileLastModified <~
    (if negb (is_True updateExists) then pure None
     else
       t <~ ask (ScStat (filename_text updateFile))
                (os_stat_mtime w (filename_text updateFile)) ;;
       d <~ answer (utcfromtimestamp t) ;;
       pure (Some d)) ;;
  let usingPro := String.eqb (lower profile) "pro" in
  say (nl ++ "           Running: " ++ script_file h ++ ", " ++ "v1.4.4") ~>
  say ("Python API Profile: " ++ profile
       ++ (if usingPro then " (using active ArcGIS Pro connection)" else "")) ~>
  say (" Target FS Item ID: " ++ itemId) ~>
  say (" Target Item Title: '" ++ itemTitle ++ "' (for verification)") ~>
  banner <~ answer (upload_banner w updateFile updateExists fileLastModified) ;;
  say ("   Upload Filename: " ++ fst banner ++ snd banner) ~>
  (if (supplied updateFile && is_False updateExists)%bool then
     exit (nl ++ bel ++ " * ERROR * Unable to locate Update File '"
           ++ filename_text updateFile ++ "' *")
   else pure tt) ~>
  emit (ScPrintNoNewline (nl ++ "Loading Python API...")) ~>
  ask ScImport (import_arcgis h) ~>
  say ("Ready!" ++ nl) ~>
  gis <~ (if negb usingPro then login_profile h profile else login_pro h) ;;
  say " - Checking item..." ~>
  match gis with
  | None => uncaught "name 'gis' is not defined"
  | Some gis =>
      found <~ ask (ScContentGet itemId) (content_get gis itemId) ;;
      match found with
      | None =>
          exit (bel ++ " * ERROR * Unable to Locate specified Item: "
                ++ itemId ++ " *")
      | Some item =>
          if negb (String.eqb (item_title item) itemTitle) then
            exit (bel ++ " * ERROR * Feature Service Item Title does NOT match specified Title: '"
                  ++ itemTitle ++ "', Found: '" ++ item_title item ++ "'")
          else run_function w item updateFile
      end
  end.

(** The script run from nothing done. *)
Definition main (w : World) (h : Host) (argv : list string)
  : step unit * list script_event :=
  script w h argv [].

(** Lines 248-249: the update source the function is called with. *)
Definition source_argument (argv : list string) : option string :=
  if (List.length argv <? 5)%nat then None else Some (nth 4 argv "").

(** The steps that log in or reach the catalog. *)
Definition is_catalog_step (e : script_event) : bool :=
  match e with
  | ScLogin _ | ScLoginPro | ScIdentity | ScContentGet _ | ScFunction _ => true
  | _ => false
  end.

(** What the function did within a run of the script. *)
Definition function_events (tr : list script_event) : list event :=
  flat_map (fun e => match e with ScFunction x => [x] | _ => [] end) tr.

End Script.

(** ** Summaries of the blocks

    What [touchItem] and [performOverwrite] record and log, read off the
    answer of the one call each of them makes. *)

(** The text of the exception the handler of [touchItem] formats. *)
Definition touch_error (w : World) (item : Item) : string :=
  match item_update item with
  | Returns v => py_str w v
  | Raises e => e
  end.

(** Whether [item.update()] answers a value equal to [True]. *)
Definition touch_ok (item : Item) : bool :=
  match item_update item with
  | Returns v => eq_True v
  | Raises _ => false
  end.

(** The [result] field of the record [touchItem] appends. *)
Definition touch_status (w : World) (item : Item) : pyval :=
  match item_update item with
  | Returns v => if eq_True v then v else PStr (failure_status (py_str w v))
  | Raises e => PStr (failure_status e)
  end.

Definition touch_trace (w : World) (verbose : bool) (item : Item)
    (message : string) : list event :=
  (if verbose then [EvPrint message] else [])
  ++ [EvItemUpdate (item_id item)]
  ++ (if verbose then
        [EvPrint (if touch_ok item then " - Success!"
                  else " * Failed to Touch details for Item Id: '"
                       ++ item_id item ++ "', Outcome: '"
                       ++ touch_error w item ++ "'")]
      else []).

(** The record and the events of the cascade, view by view. *)
Definition view_record (w : World) (view : Item) : ActionRecord :=
  record_of view (PStr "touch") (touch_status w view).

Definition cascade_trace (w : World) (verbose : bool) (views : list Item)
  : list event :=
  flat_map (fun view => touch_trace w verbose view (view_message view)) views.

(** The text of the exception the handler of [performOverwrite] formats. *)
Definition overwrite_error (w : World) (answer : call pyval) : string :=
  match answer with
  | Returns v => py_str w v
  | Raises e => e
  end.

Definition overwrite_succeeds (answer : call pyval) : bool :=
  match answer with
  | Returns v => overwrite_ok v
  | Raises _ => false
  end.

(** The [result] field of the record [performOverwrite] appends. *)
Definition overwrite_status (w : World) (answer : call pyval) : pyval :=
  if overwrite_succeeds answer then PBool true
  else PStr (failure_status (overwrite_error w answer)).

Definition overwrite_trace (w : World) (verbose : bool) (item : Item)
    (manager : Manager) (updateFile : string) : list event :=
  let answer := overwrite manager updateFile in
  (if verbose then [EvPrint (nl ++ "Performing Overwrite...")] else [])
  ++ [EvOverwrite updateFile]
  ++ (if verbose then
        [EvPrint (if overwrite_succeeds answer
                  then " - Success! Elapsed Time: " ++ elapsed_time w
                  else " * Failed to Update Item, Id: '" ++ item_id item
                       ++ "', Outcome: '" ++ overwrite_error w answer ++ "'")]
      else []).

(** What makes the overall success [True]: the overwrite from a supplied
    source, or the touch of the item itself when none is supplied; [its] is
    what has been recorded by then. *)
Definition primary_succeeded (w : World) (item : Item)
    (updateFile : option string) (touchItems : bool)
    (its : list ActionRecord) : Prop :=
  (supplied updateFile = true
   /\ its = [record_of item (PStr "update") (PBool true)]
   /\ exists manager source,
        fromitem_manager w item = Returns manager
        /\ overwrite_succeeds (overwrite manager source) = true)
  \/ (supplied updateFile = false
      /\ touchItems = true
      /\ its = [record_of item (PStr "touch") (touch_status w item)]
      /\ touch_ok item = true).

(** ** Observations on traces *)

Definition is_print (e : event) : bool :=
  match e with EvPrint _ => true | _ => false end.

Definition is_set_success (e : event) : bool :=
  match e with EvSetSuccess _ => true | _ => false end.

(** The assignment [outcome["success"] = False]. *)
Definition is_failure (e : event) : bool :=
  match e with EvSetSuccess (PBool false) => true | _ => false end.

(** Events that neither assign the overall success nor reach the catalog. *)
Definition quiet (e : event) : bool :=
  match e with
  | EvPrint _ | EvPathExists _ | EvStat _ | EvUrlOpen _ | EvUrlRetrieve _ _ =>
      true
  | _ => false
  end.

(** The query that opens the cascade. *)
Definition is_views_query (e : event) : bool :=
  match e with
  | EvRelatedItems _ kind => String.eqb kind "Service2Service"
  | _ => false
  end.

(** Events that neither assign the overall success nor open the cascade. *)
Definition unset (e : event) : bool :=
  negb (is_set_success e || is_views_query e).

(** The marker "error code" occurs in [s], in whatever case. *)
Definition has_marker (s : string) : Prop :=
  exists pre mid post, s = pre ++ mid ++ post /\ lower mid = "error code".

(** Line 129, as a value: the modification time of the local copy at
    [path], [None] standing for the [0] the source uses when there is no
    copy. *)
Definition fileLastModified (w : World) (path : string)
  : call (option datetime) :=
  if negb (os_path_exists w path) then Returns None
  else bind_call (os_stat_mtime w path) (fun t =>
       bind_call (utcfromtimestamp t) (fun d => Returns (Some d))).

(** Line 132: the service's last edit if known, else the local copy's. *)
Definition effective_reference (serviceModified fileModified : option datetime)
  : option datetime :=
  match serviceModified with
  | Some _ => serviceModified
  | None => fileModified
  end.

(** What a run does, as opposed to what it prints. *)
Definition is_action (e : event) : bool := negb (is_print e).

(** What a run without an update source may do: print, query a
    relationship, update an item, assign the overall success. *)
Definition is_touch_mode_event (e : event) : bool :=
  match e with
  | EvPrint _ | EvRelatedItems _ _ | EvItemUpdate _ | EvSetSuccess _ => true
  | _ => false
  end.

(** Line 155, negated: the remote resource has to be fetched when there is
    no reference timestamp, no "Last-Modified" header, a header that does
    not parse, or a header later than the reference. *)
Definition needs_download (w : World) (reference : option datetime)
    (headers : list (string * string)) : bool :=
  match reference, dict_lookup "Last-Modified" (dict_of_pairs headers) with
  | Some r, Some header =>
      match strptime_gmt w header with
      | Returns remote => negb (remote <=? r)
      | Raises _ => true
      end
  | _, _ => true
  end.

(** The text of the record of a failed download (line 174). *)
Definition download_failure_text (e : string) : string :=
  "Failed to Download data from url, Outcome: '" ++ e ++ "'".

(** ** A catalog to run the function on *)

Definition new_year_2015 : string := "Thu, 01 Jan 2015 00:00:00 GMT".
Definition new_year_2016 : string := "Fri, 01 Jan 2016 00:00:00 GMT".

(** [str()] on the scalars; a container is abbreviated. *)
Definition sample_str (v : pyval) : string :=
  match v with
  | PNone => "None"
  | PBool true => "True"
  | PBool false => "False"
  | PInt z => DecimalString.NilZero.string_of_int (Z.to_int z)
  | PStr s => s
  | PList _ => "[...]"
  | PDict _ => "{...}"
  end.

Definition sample_strftime (d : datetime) : string :=
  if Z.eqb d 1420070400 then new_year_2015
  else if Z.eqb d 1451606400 then new_year_2016
  else "".

Definition sample_strptime (s : string) : call datetime :=
  if String.eqb s new_year_2015 then Returns 1420070400
  else if String.eqb s new_year_2016 then Returns 1451606400
  else Raises ("time data '" ++ s
               ++ "' does not match format '%a, %d %b %Y %H:%M:%S GMT'").

(** A service last edited on 1 January 2016 whose overwrite succeeds. *)
Definition sample_manager : Manager :=
  mkManager
    [("layers",
      PList [PDict [("editingInfo",
                     PDict [("lastEditDate", PInt 1451606400000)])]])]
    (fun _ => Returns (PDict [("success", PBool true)])).

(** No local copy in the temporary directory; the remote resource was last
    modified on 1 January 2015. *)
Definition sample_world : World :=
  mkWorld sample_str sample_strftime sample_strptime "0:00:01" "/tmp"
    (fun _ => false) (fun _ => Raises "No such file or directory")
    (fun _ => Returns sample_manager)
    (fun _ => Returns [("Last-Modified", new_year_2015)])
    (fun _ path => Returns path).

(** The same, with a server that refuses the request. *)
Definition refusing_world : World :=
  mkWorld sample_str sample_strftime sample_strptime "0:00:01" "/tmp"
    (fun _ => false) (fun _ => Raises "No such file or directory")
    (fun _ => Returns sample_manager)
    (fun _ => Raises ("Error Code: 404" ++ nl ++ "Not Found"))
    (fun _ path => Returns path).

(** The same, with a resource last modified on 1 January 2016, after a
    service last edited on 1 January 2015. *)
Definition stale_manager : Manager :=
  mkManager
    [("layers",
      PList [PDict [("editingInfo",
                     PDict [("lastEditDate", PInt 1420070400000)])]])]
    (fun _ => Returns (PDict [("success", PBool true)])).

Definition fresh_world : World :=
  mkWorld sample_str sample_strftime sample_strptime "0:00:01" "/tmp"
    (fun _ => false) (fun _ => Raises "No such file or directory")
    (fun _ => Returns stale_manager)
    (fun _ => Returns [("Last-Modified", new_year_2016)])
    (fun _ path => Returns path).

Definition no_relations (kind : string) : call (list Item) := Returns [].

Definition roads_data : Item :=
  mkItem "d1" "roads" "Shapefile" (Some "roads.zip") (Returns (PBool true))
    no_relations.

Definition archived_data : Item :=
  mkItem "d2" "roads" "Shapefile" (Some "pub/roads.zip") (Returns (PBool true))
    no_relations.

Definition unnamed_data : Item :=
  mkItem "d3" "roads" "Shapefile" None (Returns (PBool true)) no_relations.

Definition roads_view : Item :=
  mkItem "v1" "Roads (view)" "Feature Service" None (Returns (PBool true))
    no_relations.

(** A view whose update answers a truthy value that is not [True]. *)
Definition chatty_view : Item :=
  mkItem "v2" "Roads (labels)" "Feature Service" None (Returns (PStr "done"))
    no_relations.

Definition service_with (data : Item) (views : list Item) : Item :=
  mkItem "s1" "Roads" "Feature Service" None (Returns (PBool true))
    (fun kind =>
       if String.eqb kind "Service2Data" then Returns [data]
       else if String.eqb kind "Service2Service" then Returns views
       else Returns []).

Definition roads_service : Item := service_with roads_data [roads_view].

Definition roads_map : Item :=
  mkItem "m1" "Roads map" "Web Map" None (Returns (PBool true)) no_relations.

(** A machine with a stored profile, and an SDK with a profile manager. *)
Definition sample_gis (found : option Item) : Script.Gis :=
  Script.mkGis (Some "editor") "https://www.arcgis.com"
    (Returns ("editor", "Ed Itor"))
    (fun id => if String.eqb id "s1" then Returns found else Returns None).

Definition sample_host (found : option Item) : Script.Host :=
  Script.mkHost "OverwriteFS.py" (Returns tt) "1.8.2" false (Returns tt)
    true (Returns tt) "/home/gis" (fun _ => true)
    (fun _ _ => Returns (Some "editor")) (fun _ => Returns (Some "secret"))
    (fun _ => Returns (sample_gis found)) (Returns (sample_gis found)).

(** The same machine with an SDK that offers neither password function. *)
Definition bare_host (found : option Item) : Script.Host :=
  Script.mkHost "OverwriteFS.py" (Returns tt) "1.5.0" false (Returns tt)
    false (Returns tt) "/home/gis" (fun _ => true)
    (fun _ _ => Returns (Some "editor")) (fun _ => Returns (Some "secret"))
    (fun _ => Returns (sample_gis found)) (Returns (sample_gis found)).


(** ** The blocks, run *)

Local Open Scope list_scope.

Ltac run_monad :=
  cbv beta iota zeta delta
      [bind ret raise try_except log invoke lift_call print when append_item
       set_success get_success return_outcome negb andb orb];
  cbn [fst snd st_trace st_outcome success items].

Ltac tidy_trace := rewrite <- ?app_assoc; cbn [app].

Lemma touchItem_run (w : World) (verbose : bool) (item : Item)
    (message : string) (s : State) :
  touchItem w verbose item message s =
  (Normal (touch_ok item),
   mkState
     (mkOutcome (success (st_outcome s))
        (items (st_outcome s)
         ++ [record_of item (PStr "touch") (touch_status w item)]))
     (st_trace s ++ touch_trace w verbose item message)).
Proof.
  unfold touchItem, touch_trace, touch_ok, touch_status, touch_error.
  destruct verbose; destruct (item_update item) as [v | e];
    try destruct (eq_True v) eqn:Hv; run_monad; rewrite ?Hv; run_monad;
    tidy_trace; reflexivity.
Qed.

Lemma touch_views_run (w : World) (verbose : bool) (views : list Item) :
  forall s : State,
    for_each views
      (fun view => touchItem w verbose view (view_message view) ;;; ret tt) s =
    (Normal tt,
     mkState
       (mkOutcome (success (st_outcome s))
          (items (st_outcome s) ++ map (view_record w) views))
       (st_trace s ++ cascade_trace w verbose views)).
Proof.
  induction views as [| view views IH]; intros s.
  - cbn. rewrite !app_nil_r. destruct s as [[? ?] ?]; reflexivity.
  - unfold cascade_trace in *.
    cbn [for_each flat_map map]. unfold bind at 1. unfold bind at 1.
    rewrite touchItem_run. unfold ret at 1. rewrite IH.
    cbn [st_outcome st_trace success items].
    rewrite <- !app_assoc. reflexivity.
Qed.

Lemma performOverwrite_run (w : World) (verbose : bool) (item : Item)
    (manager : Manager) (updateFile : string) (s : State) :
  performOverwrite w verbose item manager updateFile s =
  (Normal tt,
   mkState
     (mkOutcome (PBool (overwrite_succeeds (overwrite manager updateFile)))
        (items (st_outcome s)
         ++ [record_of item (PStr "update")
               (overwrite_status w (overwrite manager updateFile))]))
     ((st_trace s ++ overwrite_trace w verbose item manager updateFile)
      ++ [EvSetSuccess
            (PBool (overwrite_succeeds (overwrite manager updateFile)))])).
Proof.
  unfold performOverwrite, overwrite_trace, overwrite_status,
    overwrite_succeeds, overwrite_error.
  destruct verbose; destruct (overwrite manager updateFile) as [v | e];
    try destruct (overwrite_ok v) eqn:Hv; run_monad; rewrite ?Hv; run_monad;
    tidy_trace; reflexivity.
Qed.

Lemma print_each_run {A : Type} (line : A -> string) (xs : list A) :
  forall s : State,
    for_each xs
      (fun x s' =>
         (Normal tt,
          mkState (st_outcome s') (st_trace s' ++ [EvPrint (line x)]))) s =
    (Normal tt,
     mkState (st_outcome s) (st_trace s ++ map (fun x => EvPrint (line x)) xs)).
Proof.
  induction xs as [| x xs IH]; intros s.
  - cbn. rewrite app_nil_r. destruct s; reflexivity.
  - cbn [for_each map]. unfold bind at 1.
    rewrite IH. cbn [st_outcome st_trace].
    rewrite <- app_assoc. reflexivity.
Qed.

Ltac run_monad_in H :=
  cbv beta iota zeta delta
      [bind ret raise try_except log invoke lift_call print when append_item
       set_success get_success return_outcome negb andb orb] in H;
  cbn [fst snd st_trace st_outcome success items] in H.

Ltac split_on_answer H :=
  match type of H with
  | context [match ?x with _ => _ end] =>
      lazymatch x with
      | context [match _ with _ => _ end] => fail
      | _ =>
          lazymatch type of x with
          | (_ * State)%type => fail
          | _ => destruct x eqn:?
          end
      end
  end.

Ltac exec_in H :=
  repeat (run_monad_in H; rewrite ?print_each_run in H;
          try split_on_answer H);
  run_monad_in H.

Lemma quiet_prints {A : Type} (line : A -> string) (xs : list A) :
  Forall (fun e => quiet e = true) (map (fun x => EvPrint (line x)) xs).
Proof. induction xs; cbn; constructor; auto. Qed.

Ltac quiet_trace :=
  repeat first
    [ apply Forall_nil
    | apply Forall_cons; [reflexivity |]
    | apply Forall_app; split
    | apply quiet_prints ].

Lemma regroup_last (c : completion string) (o : Outcome)
    (whole before tr : list event) (e : event) :
  whole = before ++ tr ->
  (c, mkState o (whole ++ [e])) = (c, mkState o ((before ++ tr) ++ [e])).
Proof. intros ->. reflexivity. Qed.

Ltac solve_shape :=
  first
    [ left; eexists; rewrite <- ?app_assoc; reflexivity
    | right; left; eexists; rewrite <- ?app_assoc; reflexivity
    | right; right; left; eexists; split; [reflexivity |];
      rewrite <- ?app_assoc; reflexivity
    | right; right; right; eexists; eexists; split; [reflexivity |];
      eapply regroup_last; rewrite <- ?app_assoc; reflexivity ].

Lemma downloadWebData_run (w : World) (verbose : bool) (item : Item)
    (url orig : string) (sm : option datetime) (s : State) :
  exists tr,
    Forall (fun e => quiet e = true) tr /\
    ((exists path,
        downloadWebData w verbose item url orig sm s =
        (Normal path, mkState (st_outcome s) (st_trace s ++ tr)))
     \/ (exists e,
           downloadWebData w verbose item url orig sm s =
           (Raised e, mkState (st_outcome s) (st_trace s ++ tr)))
     \/ (exists o,
           o = mkOutcome (success (st_outcome s))
                 (items (st_outcome s)
                  ++ [record_of item (PStr "download")
                        (PStr "No Change in URL Data")]) /\
           downloadWebData w verbose item url orig sm s =
           (Returned o, mkState o (st_trace s ++ tr)))
     \/ (exists o text,
           o = mkOutcome (PBool false)
                 (items (st_outcome s)
                  ++ [record_of item (PStr "download") (PStr text)]) /\
           downloadWebData w verbose item url orig sm s =
           (Returned o,
            mkState o ((st_trace s ++ tr) ++ [EvSetSuccess (PBool false)])))).
Proof.
  remember (downloadWebData w verbose item url orig sm s) as r eqn:Hr.
  unfold downloadWebData in Hr.
  exec_in Hr; subst r.
  all: eexists; (split; [| solve_shape ]); quiet_trace.
Qed.

Lemma quiet_unset (tr : list event) :
  Forall (fun e => quiet e = true) tr -> Forall (fun e => unset e = true) tr.
Proof.
  apply Forall_impl. intros [] H; cbn in *; congruence.
Qed.

Lemma touch_trace_unset (w : World) (verbose : bool) (item : Item)
    (message : string) :
  Forall (fun e => unset e = true) (touch_trace w verbose item message).
Proof.
  unfold touch_trace. destruct verbose; cbn; repeat constructor.
Qed.

Lemma overwrite_trace_unset (w : World) (verbose : bool) (item : Item)
    (manager : Manager) (updateFile : string) :
  Forall (fun e => unset e = true)
    (overwrite_trace w verbose item manager updateFile).
Proof.
  unfold overwrite_trace. destruct verbose; cbn; repeat constructor.
Qed.

Ltac unset_trace :=
  repeat first
    [ apply touch_trace_unset
    | apply overwrite_trace_unset
    | apply quiet_unset; assumption
    | apply Forall_nil
    | apply Forall_cons; [reflexivity |]
    | apply Forall_app; split ].

Ltac use_download H :=
  match type of H with
  | context [downloadWebData ?w ?v ?i ?u ?o ?sm ?s] =>
      let E := fresh "E" in
      let Eo := fresh "Eo" in
      destruct (downloadWebData_run w v i u o sm s)
        as (? & ? & [ (? & E) | [ (? & E) | [ (? & Eo & E) | (? & ? & Eo & E) ] ] ]);
      rewrite E in H; clear E; try (rewrite Eo in H; clear Eo)
  end.

Ltac exec_primary H :=
  repeat (run_monad_in H;
          rewrite ?print_each_run, ?touchItem_run, ?performOverwrite_run in H;
          try split_on_answer H);
  run_monad_in H.

Ltac split_on_success H :=
  match type of H with
  | context [PBool (overwrite_succeeds ?a)] =>
      let E := fresh "Hsucc" in
      destruct (overwrite_succeeds a) eqn:E
  | context [PBool (touch_ok ?i)] =>
      let E := fresh "Hsucc" in
      destruct (touch_ok i) eqn:E
  end.

Ltac prove_succeeded :=
  cbv [primary_succeeded overwrite_status];
  first
    [ left; split; [assumption |]; split;
      [ match goal with H : overwrite_succeeds _ = true |- _ => rewrite H end;
        reflexivity
      | eexists; eexists; split; eassumption ]
    | right; split; [assumption |]; split; [reflexivity |]; split;
      [reflexivity | assumption] ].

Ltac close_primary :=
  eexists; eexists;
  (split;
   [| first
        [ left; eexists; split;
          [ reflexivity
          | first [ left; reflexivity
                  | right; left; eexists; reflexivity
                  | right; right; reflexivity ] ]
        | right; left; eexists; split;
          [ reflexivity | first [left; reflexivity | right; reflexivity] ]
        | right; right; split; [reflexivity | prove_succeeded] ] ]);
  unset_trace.

Lemma primaryAction_run (w : World) (item : Item) (updateFile : option string)
    (touchItems verbose : bool) :
  exists tr its,
    Forall (fun e => unset e = true) tr /\
    ((exists c,
        primaryAction w item updateFile touchItems verbose initial =
        (c, mkState (mkOutcome PNone its) tr)
        /\ (c = Normal tt \/ (exists e, c = Raised e)
            \/ c = Returned (mkOutcome PNone its)))
     \/ (exists c,
           primaryAction w item updateFile touchItems verbose initial =
           (c, mkState (mkOutcome (PBool false) its)
                 (tr ++ [EvSetSuccess (PBool false)]))
           /\ (c = Normal tt \/ c = Returned (mkOutcome (PBool false) its)))
     \/ (primaryAction w item updateFile touchItems verbose initial =
         (Normal tt,
          mkState (mkOutcome (PBool true) its)
            (tr ++ [EvSetSuccess (PBool true)]))
         /\ primary_succeeded w item updateFile touchItems its)).
Proof.
  remember (primaryAction w item updateFile touchItems verbose initial)
    as r eqn:Hr.
  unfold primaryAction, updateFromSource, initial in Hr.
  exec_primary Hr.
  all: try (use_download Hr; exec_primary Hr).
  all: try split_on_success Hr.
  all: subst r.
  all: close_primary.
Qed.

Lemma touchViews_run (w : World) (verbose : bool) (item : Item) (s : State) :
  touchViews w verbose item s =
  match item_related_items item "Service2Service" with
  | Returns views =>
      (Normal tt,
       mkState
         (mkOutcome (success (st_outcome s))
            (items (st_outcome s) ++ map (view_record w) views))
         (st_trace s
          ++ EvRelatedItems (item_id item) "Service2Service"
             :: cascade_trace w verbose views))
  | Raises e =>
      (Raised e,
       mkState (st_outcome s)
         (st_trace s ++ [EvRelatedItems (item_id item) "Service2Service"]))
  end.
Proof.
  unfold touchViews, invoke. unfold bind at 1. unfold bind at 1.
  unfold log at 1.
  destruct (item_related_items item "Service2Service") as [views | e].
  - unfold ret at 1. rewrite touch_views_run.
    cbn [st_outcome st_trace]. rewrite <- app_assoc. reflexivity.
  - reflexivity.
Qed.

(** Every run has one of three shapes: the overall success is never
    assigned; it is assigned [False] and nothing follows; or the primary
    action succeeded, it is assigned [True] and only the cascade follows. *)
Lemma run_shape (w : World) (item : Item) (updateFile : option string)
    (touchItems verbose : bool) :
  let run := overwriteFeatureService w item updateFile touchItems verbose in
  exists tr its,
    Forall (fun e => unset e = true) tr /\
    ((snd run = tr
      /\ (fst run = Result (mkOutcome PNone its)
          \/ exists e, fst run = Exception e))
     \/ (snd run = tr ++ [EvSetSuccess (PBool false)]
         /\ fst run = Result (mkOutcome (PBool false) its))
     \/ (primary_succeeded w item updateFile touchItems its
         /\ ((touchItems = false
              /\ snd run = tr ++ [EvSetSuccess (PBool true)]
              /\ fst run = Result (mkOutcome (PBool true) its))
             \/ (touchItems = true
                 /\ exists e,
                      item_related_items item "Service2Service" = Raises e
                      /\ snd run =
                         tr ++ [EvSetSuccess (PBool true);
                                EvRelatedItems (item_id item) "Service2Service"]
                      /\ fst run = Exception e)
             \/ (touchItems = true
                 /\ exists views,
                      item_related_items item "Service2Service" = Returns views
                      /\ snd run =
                         tr ++ EvSetSuccess (PBool true)
                            :: EvRelatedItems (item_id item) "Service2Service"
                            :: cascade_trace w verbose views
                      /\ fst run =
                         Result (mkOutcome (PBool true)
                                   (its ++ map (view_record w) views)))))).
Proof.
  cbv zeta.
  destruct (primaryAction_run w item updateFile touchItems verbose)
    as (tr & its & Htr & [ (c & E & Hc) | [ (c & E & Hc) | (E & Hok) ] ]);
    exists tr, its; (split; [exact Htr |]);
    unfold overwriteFeatureService, body, cascade; cbv beta delta [bind];
    rewrite E.
  - left.
    destruct Hc as [-> | [(e & ->) | ->]]; destruct touchItems; cbn; eauto.
  - right; left.
    destruct Hc as [-> | ->]; destruct touchItems; cbn; eauto.
  - right; right. split; [exact Hok |].
    cbv beta iota zeta delta [get_success when ret return_outcome].
    cbn [st_outcome success eq_True].
    destruct touchItems; cbn [andb].
    + right. rewrite touchViews_run.
      destruct (item_related_items item "Service2Service") as [views | e].
      * right. split; [reflexivity |]. exists views.
        cbn [fst snd st_trace st_outcome success items].
        rewrite <- app_assoc. cbn [app]. auto.
      * left. split; [reflexivity |]. exists e.
        cbn [fst snd st_trace]. rewrite <- app_assoc. cbn [app]. auto.
    + left. cbn. auto.
Qed.

(** ** Splitting a trace at an event *)

Lemma no_split (P : event -> bool) (l before after : list event) (y : event) :
  Forall (fun e => P e = false) l ->
  l = before ++ y :: after ->
  P y = true ->
  False.
Proof.
  intros Hl -> Hy. rewrite Forall_forall in Hl.
  specialize (Hl y (in_elt y before after)). congruence.
Qed.

Lemma split_at_first (P : event -> bool) (l1 l2 : list event) (x : event) :
  Forall (fun e => P e = false) l1 ->
  Forall (fun e => P e = false) l2 ->
  forall (before after : list event) (y : event),
    P y = true ->
    l1 ++ x :: l2 = before ++ y :: after ->
    before = l1 /\ y = x /\ after = l2.
Proof.
  intros H1 H2. induction H1 as [| a l1 Ha H1 IH]; intros before after y Hy E.
  - destruct before as [| b before]; cbn in E.
    + injection E as -> ->. auto.
    + injection E as -> E. exfalso. eapply (no_split P); eauto.
  - destruct before as [| b before]; cbn in E.
    + injection E as -> _. congruence.
    + injection E as -> E. destruct (IH _ _ _ Hy E) as (-> & -> & ->). auto.
Qed.

Lemma unset_not_failure (tr : list event) :
  Forall (fun e => unset e = true) tr ->
  Forall (fun e => is_failure e = false) tr.
Proof.
  apply Forall_impl. intros [] H; cbn in *; congruence.
Qed.

Lemma unset_not_set_success (tr : list event) :
  Forall (fun e => unset e = true) tr ->
  Forall (fun e => is_set_success e = false) tr.
Proof.
  apply Forall_impl. intros [] H; cbn in *; congruence.
Qed.

Lemma unset_not_views_query (tr : list event) :
  Forall (fun e => unset e = true) tr ->
  Forall (fun e => is_views_query e = false) tr.
Proof.
  apply Forall_impl. intros e H. unfold unset in H.
  destruct (is_views_query e); [| reflexivity].
  rewrite orb_true_r in H. discriminate.
Qed.

Lemma cascade_trace_unset (w : World) (verbose : bool) (views : list Item) :
  Forall (fun e => unset e = true) (cascade_trace w verbose views).
Proof.
  unfold cascade_trace. induction views as [| view views IH]; cbn.
  - constructor.
  - apply Forall_app. split; [apply touch_trace_unset | exact IH].
Qed.

Lemma cascade_trace_updates (w : World) (verbose : bool) (views : list Item) :
  filter is_item_update (cascade_trace w verbose views)
  = map (fun view => EvItemUpdate (item_id view)) views.
Proof.
  unfold cascade_trace. induction views as [| view views IH].
  - reflexivity.
  - cbn [flat_map map]. rewrite filter_app, IH. unfold touch_trace.
    destruct verbose; reflexivity.
Qed.

Lemma original_filename_last (earlier : list Item) (d : Item) :
  original_filename (earlier ++ [d]) = item_name d.
Proof.
  unfold original_filename. rewrite fold_left_app. reflexivity.
Qed.

(** ** The claims *)

(** *** Verification of the item *)

(** C4. An item whose type is not "Feature Service" gives an outcome with
    success [False] and exactly one record, of action "verify", whatever
    [updateFile], [touchItems] and [verbose] are; the run makes no
    related-item query (it does nothing but assign the overall success). *)
Theorem other_item_type_is_rejected (w : World) (item : Item)
    (updateFile : option string) (touchItems verbose : bool) :
  item_type item <> "Feature Service" ->
  fst (overwriteFeatureService w item updateFile touchItems verbose)
  = Result (mkOutcome (PBool false)
              [record_of item (PStr "verify")
                 (PStr "Item Type is NOT a 'Feature Service'")])
  /\ snd (overwriteFeatureService w item updateFile touchItems verbose)
     = [EvSetSuccess (PBool false)]
  /\ Forall (fun e => is_related_items e = false)
       (snd (overwriteFeatureService w item updateFile touchItems verbose)).
Proof.
  intros Htype. apply String.eqb_neq in Htype.
  unfold overwriteFeatureService, body, primaryAction, cascade, initial.
  rewrite Htype. destruct touchItems; cbn; repeat split; repeat constructor.
Qed.

(** C5. A Feature Service whose "Service2Data" relationship yields no data
    item, or whose data item has no name or an empty one, gives success
    [False] and exactly one record, and the relationship query is the only
    catalog call of the run: no overwrite, no cascade, whatever the update
    source. *)
Theorem missing_data_item_stops_the_run (w : World) (item : Item)
    (updateFile : option string) (touchItems verbose : bool)
    (dataItems : list Item) :
  item_type item = "Feature Service" ->
  item_related_items item "Service2Data" = Returns dataItems ->
  (dataItems = []
   \/ exists earlier d,
        dataItems = earlier ++ [d] /\ no_filename (item_name d) = true) ->
  fst (overwriteFeatureService w item updateFile touchItems verbose)
  = Result (mkOutcome (PBool false)
              [record_of item (PStr "verify")
                 (PStr "Missing Associated Service Data Item or datafile Item 'name'")])
  /\ snd (overwriteFeatureService w item updateFile touchItems verbose)
     = [EvRelatedItems (item_id item) "Service2Data"; EvSetSuccess (PBool false)]
  /\ filter is_catalog_call
       (snd (overwriteFeatureService w item updateFile touchItems verbose))
     = [EvRelatedItems (item_id item) "Service2Data"].
Proof.
  intros Htype Hdata Hname.
  assert (Hno : no_filename (original_filename dataItems) = true).
  { destruct Hname as [-> | (earlier & d & -> & Hd)].
    - reflexivity.
    - rewrite original_filename_last. exact Hd. }
  unfold overwriteFeatureService, body, primaryAction, cascade, initial.
  rewrite Htype. run_monad. rewrite Hdata, Hno. cbn. auto.
Qed.

(** *** Invariants of a run *)

(** C3. Once a step has set the overall success to [False], the run is
    over: nothing follows the assignment in the trace, so no overwrite and
    no touch of a view (no item update at all) happens after it, and the
    function returns the outcome with success [False]. *)
Theorem nothing_follows_a_failure (w : World) (item : Item)
    (updateFile : option string) (touchItems verbose : bool)
    (before after : list event) :
  snd (overwriteFeatureService w item updateFile touchItems verbose)
  = before ++ EvSetSuccess (PBool false) :: after ->
  after = []
  /\ Forall (fun e => is_destructive e = false) after
  /\ exists its,
       fst (overwriteFeatureService w item updateFile touchItems verbose)
       = Result (mkOutcome (PBool false) its).
Proof.
  intros Hsplit.
  destruct (run_shape w item updateFile touchItems verbose)
    as (tr & its & Htr & Hshape).
  cbv zeta in Hshape.
  pose proof (unset_not_failure tr Htr) as Hnf.
  destruct Hshape as [(Etr & _) | [(Etr & Eres) | (_ & Hcascade)]].
  - exfalso. rewrite Etr in Hsplit.
    eapply (no_split is_failure); eauto.
  - rewrite Etr in Hsplit.
    destruct (split_at_first is_failure tr [] (EvSetSuccess (PBool false))
                Hnf (Forall_nil _) before after
                (EvSetSuccess (PBool false)) eq_refl Hsplit)
      as (_ & _ & ->).
    repeat split; [constructor | eauto].
  - exfalso.
    destruct Hcascade
      as [(_ & Etr & _) | [(_ & e & _ & Etr & _) | (_ & views & _ & Etr & _)]];
      rewrite Etr in Hsplit;
      eapply (no_split is_failure); try exact Hsplit; try reflexivity;
      apply Forall_app; (split; [exact Hnf |]);
      repeat (apply Forall_cons; [reflexivity |]); try apply Forall_nil.
    apply unset_not_failure, cascade_trace_unset.
Qed.

(** C10. The overall success starts as [None]; whatever the function
    returns carries [None], [True] or [False] there, and every assignment
    to it assigns [True] or [False]; it stays [None] when no assignment is
    made; it is [True] only when the primary action succeeded (the
    overwrite from a supplied source, or the touch of the item itself);
    nothing assigns it once the cascade has started, and a touch leaves it
    as it is and appends one record. *)
Theorem overall_success_invariant (w : World) (item : Item)
    (updateFile : option string) (touchItems verbose : bool) :
  success (st_outcome initial) = PNone
  /\ (forall o,
        fst (overwriteFeatureService w item updateFile touchItems verbose)
        = Result o ->
        success o = PNone \/ success o = PBool true \/ success o = PBool false)
  /\ (forall v,
        In (EvSetSuccess v)
           (snd (overwriteFeatureService w item updateFile touchItems verbose)) ->
        v = PBool true \/ v = PBool false)
  /\ (forall o,
        fst (overwriteFeatureService w item updateFile touchItems verbose)
        = Result o ->
        Forall (fun e => is_set_success e = false)
          (snd (overwriteFeatureService w item updateFile touchItems verbose)) ->
        success o = PNone)
  /\ (forall o,
        fst (overwriteFeatureService w item updateFile touchItems verbose)
        = Result o ->
        success o = PBool true ->
        exists its, primary_succeeded w item updateFile touchItems its)
  /\ (forall before after,
        snd (overwriteFeatureService w item updateFile touchItems verbose)
        = before ++ EvRelatedItems (item_id item) "Service2Service" :: after ->
        Forall (fun e => is_set_success e = false) after)
  /\ (forall view message s,
        success (st_outcome (snd (touchItem w verbose view message s)))
        = success (st_outcome s)
        /\ items (st_outcome (snd (touchItem w verbose view message s)))
           = items (st_outcome s) ++ [view_record w view]).
Proof.
  destruct (run_shape w item updateFile touchItems verbose)
    as (tr & its & Htr & Hshape).
  cbv zeta in Hshape.
  pose proof (unset_not_set_success tr Htr) as Hns.
  pose proof (unset_not_views_query tr Htr) as Hnq.
  split; [reflexivity |].
  assert (Hin : forall v, In (EvSetSuccess v) tr -> False).
  { intros v Hv. rewrite Forall_forall in Hns.
    specialize (Hns _ Hv). discriminate. }
  assert (Hcas : forall views v,
             In (EvSetSuccess v) (cascade_trace w verbose views) -> False).
  { intros views v Hv.
    pose proof (unset_not_set_success _ (cascade_trace_unset w verbose views))
      as H.
    rewrite Forall_forall in H. specialize (H _ Hv). discriminate. }
  repeat split.
  - intros o Ho.
    destruct Hshape
      as [(_ & [E | (e & E)]) | [(_ & E) | (_ & [(_ & _ & E)
          | [(_ & e & _ & _ & E) | (_ & views & _ & _ & E)]])]];
      rewrite E in Ho; inversion Ho; subst; cbn; auto.
  - intros v Hv.
    destruct Hshape
      as [(E & _) | [(E & _) | (_ & [(_ & E & _)
          | [(_ & e & _ & E & _) | (_ & views & _ & E & _)]])]];
      rewrite E in Hv; try apply in_app_or in Hv; cbn in Hv.
    + exfalso; eauto.
    + destruct Hv as [Hv | [Hv | []]]; [exfalso; eauto |].
      injection Hv as <-. auto.
    + destruct Hv as [Hv | [Hv | []]]; [exfalso; eauto |].
      injection Hv as <-. auto.
    + destruct Hv as [Hv | [Hv | [Hv | []]]];
        [exfalso; eauto | | discriminate].
      injection Hv as <-. auto.
    + destruct Hv as [Hv | [Hv | [Hv | Hv]]];
        [exfalso; eauto | | discriminate | exfalso; eauto].
      injection Hv as <-. auto.
  - intros o Ho Hnone.
    destruct Hshape
      as [(_ & [E | (e & E)]) | [(Etr & _) | (_ & [(_ & Etr & _)
          | [(_ & e & _ & Etr & _) | (_ & views & _ & Etr & _)]])]];
      try (rewrite E in Ho; inversion Ho; subst; reflexivity);
      exfalso; rewrite Etr in Hnone; apply Forall_app in Hnone;
      destruct Hnone as (_ & Hnone); inversion Hnone; discriminate.
  - intros o Ho Htrue.
    destruct Hshape
      as [(_ & [E | (e & E)]) | [(_ & E) | (Hok & _)]];
      try (rewrite E in Ho; inversion Ho; subst; discriminate).
    exists its. exact Hok.
  - intros before after Hsplit.
    destruct Hshape
      as [(E & _) | [(E & _) | (_ & [(_ & E & _)
          | [(_ & e & _ & E & _) | (_ & views & _ & E & _)]])]];
      rewrite E in Hsplit.
    + exfalso. eapply (no_split is_views_query); eauto.
    + exfalso. eapply (no_split is_views_query); try exact Hsplit;
        [| reflexivity].
      apply Forall_app; split; [exact Hnq | repeat constructor].
    + exfalso. eapply (no_split is_views_query); try exact Hsplit;
        [| reflexivity].
      apply Forall_app; split; [exact Hnq | repeat constructor].
    + change (tr ++ [EvSetSuccess (PBool true);
                     EvRelatedItems (item_id item) "Service2Service"])
        with (tr ++ [EvSetSuccess (PBool true)]
                 ++ EvRelatedItems (item_id item) "Service2Service" :: [])
        in Hsplit.
      rewrite app_assoc in Hsplit.
      apply split_at_first with (P := is_views_query) in Hsplit;
        try reflexivity; try constructor.
      * destruct Hsplit as (_ & _ & ->). constructor.
      * apply Forall_app; split; [exact Hnq | repeat constructor].
    + change (tr ++ EvSetSuccess (PBool true)
                 :: EvRelatedItems (item_id item) "Service2Service"
                 :: cascade_trace w verbose views)
        with (tr ++ [EvSetSuccess (PBool true)]
                 ++ EvRelatedItems (item_id item) "Service2Service"
                    :: cascade_trace w verbose views)
        in Hsplit.
      rewrite app_assoc in Hsplit.
      apply split_at_first with (P := is_views_query) in Hsplit;
        try reflexivity.
      * destruct Hsplit as (_ & _ & ->).
        apply unset_not_set_success, cascade_trace_unset.
      * apply Forall_app; split; [exact Hnq | repeat constructor].
      * apply unset_not_views_query, cascade_trace_unset.
  - rewrite touchItem_run. reflexivity.
  - rewrite touchItem_run. reflexivity.
Qed.

(** *** The failure string *)

Local Open Scope string_scope.

Lemma starts_with_spec (sub s : string) :
  starts_with sub s = true <-> exists post, s = sub ++ post.
Proof.
  revert s. induction sub as [| c sub IH]; intros s; cbn.
  - split; [intros _; exists s; reflexivity | reflexivity].
  - destruct s as [| c' s].
    + split; [discriminate | intros (post & H); discriminate].
    + rewrite andb_true_iff, Ascii.eqb_eq, IH.
      split.
      * intros (-> & post & ->). exists post. reflexivity.
      * intros (post & H). injection H as -> ->. eauto.
Qed.

Lemma contains_spec (sub s : string) :
  contains sub s = true <-> exists pre post, s = pre ++ sub ++ post.
Proof.
  induction s as [| c s IH]; cbn [contains].
  - destruct (starts_with sub "") eqn:Hp.
    + apply starts_with_spec in Hp. destruct Hp as (post & Hp).
      split; [intros _; exists "", post; exact Hp | reflexivity].
    + split; [discriminate | intros (pre & post & H)].
      destruct pre; [| discriminate]. cbn in H.
      assert (starts_with sub "" = true) by (apply starts_with_spec; eauto).
      congruence.
  - destruct (starts_with sub (String c s)) eqn:Hp.
    + apply starts_with_spec in Hp. destruct Hp as (post & Hp).
      split; [intros _; exists "", post; exact Hp | reflexivity].
    + rewrite IH. split.
      * intros (pre & post & ->). exists (String c pre), post. reflexivity.
      * intros (pre & post & H). destruct pre as [| c' pre].
        -- cbn in H.
           assert (starts_with sub (String c s) = true)
             by (apply starts_with_spec; eauto).
           congruence.
        -- injection H as _ ->. eauto.
Qed.

Lemma lower_app (a b : string) : lower (a ++ b) = lower a ++ lower b.
Proof. induction a as [| c a IH]; cbn; [reflexivity | now rewrite IH]. Qed.

Lemma lower_app_inv (a r : string) :
  forall s, lower s = a ++ r ->
            exists s1 s2, s = s1 ++ s2 /\ lower s1 = a /\ lower s2 = r.
Proof.
  induction a as [| c a IH]; intros s H.
  - exists "", s. auto.
  - destruct s as [| c' s]; [discriminate |].
    cbn in H. injection H as Hc H.
    destruct (IH _ H) as (s1 & s2 & -> & <- & <-).
    exists (String c' s1), s2. cbn. rewrite Hc. auto.
Qed.

Lemma marker_found (s : string) :
  contains "error code" (lower s) = true <-> has_marker s.
Proof.
  rewrite contains_spec. split.
  - intros (a & b & H).
    destruct (lower_app_inv _ _ _ H) as (pre & rest & -> & _ & Hrest).
    destruct (lower_app_inv _ _ _ Hrest) as (mid & post & -> & Hmid & _).
    exists pre, mid, post. auto.
  - intros (pre & mid & post & -> & Hmid).
    exists (lower pre), (lower post). now rewrite !lower_app, Hmid.
Qed.

Lemma replace_char_length (old new : ascii) (s : string) :
  String.length (replace_char old new s) = String.length s.
Proof. induction s; cbn; congruence. Qed.

Lemma replace_char_get (old new : ascii) (s : string) :
  forall i c,
    String.get i s = Some c ->
    String.get i (replace_char old new s)
    = Some (if Ascii.eqb c old then new else c).
Proof.
  induction s as [| c' s IH]; intros i c H; [discriminate |].
  destruct i as [| i]; cbn in *.
  - now injection H as ->.
  - auto.
Qed.

Lemma replace_char_removes (old new : ascii) (s : string) :
  old <> new -> ~ In_string old (replace_char old new s).
Proof.
  intros Hne. induction s as [| c s IH]; cbn; [tauto |].
  intros [H | H]; [| tauto].
  destruct (Ascii.eqb c old) eqn:E; [congruence |].
  apply Ascii.eqb_neq in E. congruence.
Qed.

(** C9. The failure string of the overwrite and touch error paths (the
    [result] of their records, see C2 and C8) is the formatted message with
    every newline replaced by a space when the message contains the marker
    "error code" in whatever case, and the formatted message itself when it
    does not. *)
Theorem failure_string_flattening (e : string) :
  (has_marker (failure_text e) ->
   failure_status e = replace_char nl_char " " (failure_text e)
   /\ String.length (failure_status e) = String.length (failure_text e)
   /\ ~ In_string nl_char (failure_status e)
   /\ forall i c,
        String.get i (failure_text e) = Some c ->
        String.get i (failure_status e)
        = Some (if Ascii.eqb c nl_char then " "%char else c))
  /\ (~ has_marker (failure_text e) -> failure_status e = failure_text e).
Proof.
  unfold failure_status. cbv zeta. split.
  - intros Hm. apply marker_found in Hm. rewrite Hm. cbn [negb].
    repeat split.
    + apply replace_char_length.
    + apply replace_char_removes. discriminate.
    + apply replace_char_get.
  - intros Hm.
    destruct (contains "error code" (lower (failure_text e))) eqn:E;
      [| reflexivity].
    apply marker_found in E. contradiction.
Qed.

(** *** The toucher and the overwrite step *)

(** C2, as amended. [touchItem] makes one update call, appends one "touch"
    record and leaves the overall success alone; the touch is a success
    exactly when the call returns a value equal to [True] ([True] itself or
    [1]), and that value is what it records; any other returned value, or
    a raised error, is recorded as the failure string of its text; the
    boolean returned tells whether the touch succeeded. *)
Theorem touch_succeeds_on_answer_equal_to_True (w : World) (verbose : bool)
    (item : Item) (message : string) (s : State) :
  exists status tr,
    touchItem w verbose item message s =
    (Normal (eq_True status),
     mkState
       (mkOutcome (success (st_outcome s))
          (items (st_outcome s) ++ [record_of item (PStr "touch") status]))
       (st_trace s ++ tr))
    /\ filter (fun e => negb (is_print e)) tr = [EvItemUpdate (item_id item)]
    /\ (eq_True status = true <->
        exists v, item_update item = Returns v /\ eq_True v = true)
    /\ (forall v, item_update item = Returns v -> eq_True v = true ->
                  status = v)
    /\ (forall v, item_update item = Returns v -> eq_True v = false ->
                  status = PStr (failure_status (py_str w v)))
    /\ (forall e, item_update item = Raises e ->
                  status = PStr (failure_status e)).
Proof.
  exists (touch_status w item), (touch_trace w verbose item message).
  rewrite touchItem_run. unfold touch_ok, touch_status, touch_trace.
  destruct (item_update item) as [v | e]; [destruct (eq_True v) eqn:Hv |].
  - rewrite Hv. repeat split; try (destruct verbose; reflexivity).
    + intros _. eauto.
    + intros v' Hv'. injection Hv' as <-. reflexivity.
    + intros v' Hv'. injection Hv' as <-. congruence.
    + discriminate.
  - cbn [eq_True]. repeat split; try (destruct verbose; reflexivity).
    + discriminate.
    + intros (v' & Hv' & Ht). injection Hv' as <-. congruence.
    + intros v' Hv'. injection Hv' as <-. congruence.
    + intros v' Hv'. injection Hv' as <-. reflexivity.
    + discriminate.
  - cbn [eq_True]. repeat split; try (destruct verbose; reflexivity).
    + discriminate.
    + intros (v' & Hv' & _). discriminate.
    + discriminate.
    + discriminate.
    + intros e' He'. injection He' as <-. reflexivity.
Qed.

(** C8. The overwrite step makes one overwrite call and appends one
    "update" record.  Its result is [True] exactly when the call returns a
    dictionary that holds a truthy value under "success"; otherwise (any
    other value, or a raised error) it is the failure string of the text of
    what was returned or raised.  The overall success is set to [True]
    exactly when the recorded result is [True], and to [False] otherwise. *)
Theorem overwrite_result_is_recorded (w : World) (verbose : bool)
    (item : Item) (manager : Manager) (updateFile : string) (s : State) :
  exists status ok tr,
    performOverwrite w verbose item manager updateFile s =
    (Normal tt,
     mkState
       (mkOutcome (PBool ok)
          (items (st_outcome s) ++ [record_of item (PStr "update") status]))
       (st_trace s ++ tr ++ [EvSetSuccess (PBool ok)]))
    /\ filter (fun e => negb (is_print e)) tr = [EvOverwrite updateFile]
    /\ (ok = true <-> status = PBool true)
    /\ (status = PBool true <->
        exists d flag,
          overwrite manager updateFile = Returns (PDict d)
          /\ dict_lookup "success" d = Some flag
          /\ truthy flag = true)
    /\ (status <> PBool true ->
        exists text,
          status = PStr (failure_status text)
          /\ (overwrite manager updateFile = Raises text
              \/ exists v, overwrite manager updateFile = Returns v
                           /\ text = py_str w v)).
Proof.
  exists (overwrite_status w (overwrite manager updateFile)),
         (overwrite_succeeds (overwrite manager updateFile)),
         (overwrite_trace w verbose item manager updateFile).
  rewrite performOverwrite_run, <- app_assoc.
  split; [reflexivity |].
  split; [unfold overwrite_trace; destruct verbose; reflexivity |].
  unfold overwrite_status.
  assert (Hok : overwrite_succeeds (overwrite manager updateFile) = true <->
                exists d flag,
                  overwrite manager updateFile = Returns (PDict d)
                  /\ dict_lookup "success" d = Some flag
                  /\ truthy flag = true).
  { unfold overwrite_succeeds, overwrite_ok.
    destruct (overwrite manager updateFile) as [v | e].
    - split.
      + intros H. destruct v as [| | | | | d]; cbn in H;
          rewrite ?andb_false_r in H; try discriminate.
        destruct d as [| kv d]; [discriminate |]. cbn [truthy andb] in H.
        destruct (dict_lookup "success" (kv :: d)) as [flag |] eqn:Hl;
          [| discriminate].
        exists (kv :: d), flag. auto.
      + intros (d & flag & Hv & Hl & Hf). injection Hv as ->.
        cbn. rewrite Hl, Hf. destruct d; [discriminate | reflexivity].
    - split; [discriminate | intros (d & flag & H & _); discriminate]. }
  destruct (overwrite_succeeds (overwrite manager updateFile)) eqn:E.
  - repeat split; auto.
    + intros _. apply Hok. reflexivity.
    + intros H. contradiction H. reflexivity.
  - repeat split; try discriminate.
    + intros H. apply Hok in H. discriminate.
    + intros _. exists (overwrite_error w (overwrite manager updateFile)).
      split; [reflexivity |]. unfold overwrite_error.
      destruct (overwrite manager updateFile) as [v | e]; eauto.
Qed.

(** *** Update from a supplied source *)

Lemma quiet_untouched (tr : list event) :
  Forall (fun e => quiet e = true) tr ->
  Forall (fun e => is_views_query e = false /\ is_item_update e = false) tr.
Proof.
  apply Forall_impl. intros [] H; cbn in *; try discriminate; auto.
Qed.

Lemma overwrite_trace_untouched (w : World) (verbose : bool) (item : Item)
    (manager : Manager) (updateFile : string) :
  Forall (fun e => is_views_query e = false /\ is_item_update e = false)
    (overwrite_trace w verbose item manager updateFile).
Proof.
  unfold overwrite_trace. destruct verbose; cbn; repeat constructor.
Qed.

Ltac untouched_trace :=
  repeat first
    [ apply overwrite_trace_untouched
    | apply quiet_untouched; assumption
    | apply Forall_nil
    | apply Forall_cons; [split; reflexivity |]
    | apply Forall_app; split ].

(** With [touchItems] false the primary action touches nothing: line 216
    is the only call of [touchItem] outside the cascade. *)
Lemma primaryAction_untouched (w : World) (item : Item)
    (updateFile : option string) (verbose : bool) :
  Forall (fun e => is_views_query e = false /\ is_item_update e = false)
    (st_trace (snd (primaryAction w item updateFile false verbose initial))).
Proof.
  remember (primaryAction w item updateFile false verbose initial)
    as r eqn:Hr.
  unfold primaryAction, updateFromSource, initial in Hr.
  exec_primary Hr.
  all: try (use_download Hr; exec_primary Hr).
  all: subst r; cbn [snd st_trace].
  all: untouched_trace.
Qed.

Lemma run_without_touchItems (w : World) (item : Item)
    (updateFile : option string) (verbose : bool) :
  Forall (fun e => is_views_query e = false /\ is_item_update e = false)
    (snd (overwriteFeatureService w item updateFile false verbose)).
Proof.
  pose proof (primaryAction_untouched w item updateFile verbose) as H.
  unfold overwriteFeatureService, body, cascade. cbv beta delta [bind].
  destruct (primaryAction w item updateFile false verbose initial)
    as [[[] | e | o] s]; cbn in *; exact H.
Qed.

(** C1, as amended.  When [touchItems] is true and the update from a
    supplied source succeeds (the run sets the overall success to [True]),
    the function goes on to query the "Service2Service" relationship and,
    whatever [verbose] is, touches every view it lists, once and in order;
    the outcome holds the update record followed by one touch record per
    view, whether the touch of that view succeeded or not.  With
    [touchItems] false, whatever the source, the answers of the platform
    and [verbose] are, no run queries the "Service2Service" relationship
    and no run makes an item update: no view is queried or touched. *)
Theorem successful_update_touches_every_view (w : World) (item : Item)
    (updateFile : option string) (verbose : bool) :
  (supplied updateFile = true ->
   In (EvSetSuccess (PBool true))
      (snd (overwriteFeatureService w item updateFile true verbose)) ->
   forall views,
     item_related_items item "Service2Service" = Returns views ->
     fst (overwriteFeatureService w item updateFile true verbose)
     = Result (mkOutcome (PBool true)
                 (record_of item (PStr "update") (PBool true)
                  :: map (view_record w) views))
     /\ exists before cascaded,
          snd (overwriteFeatureService w item updateFile true verbose)
          = (before
             ++ EvSetSuccess (PBool true)
                :: EvRelatedItems (item_id item) "Service2Service"
                :: cascaded)%list
          /\ filter is_item_update cascaded
             = map (fun view => EvItemUpdate (item_id view)) views)
  /\ Forall (fun e => is_views_query e = false /\ is_item_update e = false)
       (snd (overwriteFeatureService w item updateFile false verbose)).
Proof.
  split; [| apply run_without_touchItems].
  intros Hsup Hset views Hviews.
  destruct (run_shape w item updateFile true verbose)
    as (tr & its & Htr & Hshape).
  cbv zeta in Hshape.
  assert (Hin : In (EvSetSuccess (PBool true)) tr -> False).
  { intros Hv. apply unset_not_set_success in Htr.
    rewrite Forall_forall in Htr. specialize (Htr _ Hv). discriminate. }
  destruct Hshape as [(E & _) | [(E & _) | (Hok & Hcascade)]].
  - exfalso. rewrite E in Hset. auto.
  - exfalso. rewrite E in Hset. apply in_app_or in Hset.
    destruct Hset as [Hv | [Hv | []]]; [auto | discriminate].
  - destruct Hok as [(_ & -> & _) | (Hno & _)]; [| congruence].
    destruct Hcascade
      as [(Hf & _) | [(_ & e & He & _) | (_ & views' & Hv' & Etr & Eres)]];
      try congruence.
    rewrite Hviews in Hv'. injection Hv' as <-.
    split; [exact Eres |].
    exists tr, (cascade_trace w verbose views).
    split; [exact Etr | apply cascade_trace_updates].
Qed.

(** C6.  For a Feature Service with a named data item and a supplied
    local path (its text before the first colon is none of ftp, http,
    https) whose final component differs from the original filename, the
    overwrite is never invoked, and the outcome the function returns has
    success [False] and a single "verify" record.  The original filename
    is read as the code reads it at line 183, through its final component:
    a stored name that is a plain filename is its own final component, and
    for a stored name that is itself a path the final components are what
    is compared.  The outcome is returned whenever the lookup of the
    manager and the reading of the last edit (lines 112-117, which run
    before the comparison) return; an error raised there reaches the
    caller, and the overwrite is not invoked then either. *)
Theorem local_name_mismatch_is_rejected (w : World) (item : Item)
    (updateFile orig : string) (touchItems verbose : bool)
    (dataItems : list Item) :
  item_type item = "Feature Service" ->
  item_related_items item "Service2Data" = Returns dataItems ->
  original_filename dataItems = Some orig ->
  orig <> "" ->
  updateFile <> "" ->
  is_url updateFile = false ->
  (os_path_split_tail orig = orig /\ os_path_split_tail updateFile <> orig)
  \/ os_path_split_tail updateFile <> os_path_split_tail orig ->
  Forall (fun e => is_overwrite e = false)
    (snd (overwriteFeatureService w item (Some updateFile) touchItems verbose))
  /\ (forall o,
        fst (overwriteFeatureService w item (Some updateFile) touchItems verbose)
        = Result o ->
        o = mkOutcome (PBool false)
              [record_of item (PStr "verify")
                 (PStr ("Update Filename '" ++ updateFile
                        ++ "' does NOT match Original Filename used to Publish Service: '"
                        ++ orig ++ "'"))])
  /\ (forall manager edited,
        fromitem_manager w item = Returns manager ->
        serviceLastModified (properties manager) = Returns edited ->
        exists o,
          fst (overwriteFeatureService w item (Some updateFile) touchItems
                 verbose)
          = Result o)
  /\ (forall e,
        fromitem_manager w item = Raises e
        \/ (exists manager,
              fromitem_manager w item = Returns manager
              /\ serviceLastModified (properties manager) = Raises e) ->
        fst (overwriteFeatureService w item (Some updateFile) touchItems verbose)
        = Exception e).
Proof.
  intros Htype Hdata Horig Hname Hsup Hlocal Hdiffers.
  assert (Htail : os_path_split_tail updateFile <> os_path_split_tail orig).
  { destruct Hdiffers as [[E H] | H]; [rewrite E |]; exact H. }
  clear Hdiffers.
  apply String.eqb_neq in Hname, Hsup, Htail.
  unfold overwriteFeatureService, body, primaryAction, updateFromSource,
    cascade, initial, supplied, no_filename.
  destruct (fromitem_manager w item) as [manager | raised] eqn:Hmgr;
    [destruct (serviceLastModified (properties manager))
       as [edited | raised] eqn:Hedit |];
    repeat (run_monad;
            rewrite ?Htype, ?Hdata, ?Horig, ?Hname, ?Hsup, ?Hmgr, ?Hedit,
              ?Hlocal, ?Htail;
            cbn [filename_text String.eqb Ascii.eqb Bool.eqb]).
  - destruct verbose, edited, touchItems; cbn;
      (split; [repeat constructor |]);
      (split; [intros o [= <-]; reflexivity |]);
      (split; [intros ? ? _ _; eexists; reflexivity |]);
      intros e [[=] | (m & [= <-] & E)]; congruence.
  - destruct verbose, touchItems; cbn;
      (split; [repeat constructor |]);
      (split; [intros o [=] |]);
      (split; [intros m d [= <-] E; congruence |]);
      intros e [[=] | (m & [= <-] & E)]; congruence.
  - destruct verbose, touchItems; cbn;
      (split; [repeat constructor |]);
      (split; [intros o [=] |]);
      (split; [intros m d [=] |]);
      intros e [[= <-] | (m & [=] & _)]; reflexivity.
Qed.

Lemma is_url_nonempty (updateFile : string) :
  is_url updateFile = true -> updateFile <> "".
Proof. intros H ->. discriminate. Qed.

Lemma prints_are_no_transfer {A : Type} (line : A -> string) (xs : list A) :
  Forall (fun e => is_url_retrieve e = false /\ is_overwrite e = false)
    (map (fun x => EvPrint (line x)) xs).
Proof. induction xs; cbn; constructor; auto. Qed.

(** C7.  For a Feature Service with a named data item and a remote update
    source, when the effective reference timestamp (the service's last
    edit if known, otherwise the modification time of the local copy) is
    there and is not before the parsed "Last-Modified" header of the
    response, the function returns at once: the outcome holds exactly one
    record, of action "download", saying no change, the overall success is
    left [None], and neither the download nor the overwrite is made. *)
Theorem unchanged_remote_source_is_skipped (w : World) (item : Item)
    (url orig header : string) (touchItems verbose : bool)
    (dataItems : list Item) (manager : Manager)
    (edited copied : option datetime) (reference remote : datetime)
    (headers : list (string * string)) :
  item_type item = "Feature Service" ->
  item_related_items item "Service2Data" = Returns dataItems ->
  original_filename dataItems = Some orig ->
  orig <> "" ->
  is_url url = true ->
  fromitem_manager w item = Returns manager ->
  serviceLastModified (properties manager) = Returns edited ->
  fileLastModified w (os_path_join (gettempdir w) orig) = Returns copied ->
  effective_reference edited copied = Some reference ->
  urlopen_headers w url = Returns headers ->
  dict_lookup "Last-Modified" (dict_of_pairs headers) = Some header ->
  strptime_gmt w header = Returns remote ->
  (remote <= reference)%Z ->
  fst (overwriteFeatureService w item (Some url) touchItems verbose)
  = Result (mkOutcome PNone
              [record_of item (PStr "download") (PStr "No Change in URL Data")])
  /\ Forall (fun e => is_url_retrieve e = false /\ is_overwrite e = false)
       (snd (overwriteFeatureService w item (Some url) touchItems verbose)).
Proof.
  intros Htype Hdata Horig Hname Hurl Hmgr Hedit Hcopy Href Hopen Hhead
    Hparse Hle.
  pose proof (is_url_nonempty url Hurl) as Hsup.
  apply String.eqb_neq in Hname, Hsup. apply Z.leb_le in Hle.
  unfold fileLastModified in Hcopy. unfold effective_reference in Href.
  unfold overwriteFeatureService, body, primaryAction, updateFromSource,
    downloadWebData, cascade, initial, supplied, no_filename.
  repeat (run_monad;
          rewrite ?Htype, ?Hdata, ?Horig, ?Hname, ?Hsup, ?Hmgr, ?Hedit, ?Hurl;
          cbn [filename_text String.eqb Ascii.eqb Bool.eqb]).
  destruct (os_path_exists w (os_path_join (gettempdir w) orig));
    cbn [negb bind_call] in Hcopy;
    [ destruct (os_stat_mtime w (os_path_join (gettempdir w) orig)) as [t | e];
      cbn [bind_call] in Hcopy; [| discriminate];
      destruct (utcfromtimestamp t) as [d | e];
      cbn [bind_call] in Hcopy; [| discriminate] |];
    injection Hcopy as <-;
    destruct edited as [d' |]; try discriminate; injection Href as ->;
    destruct verbose;
    repeat (run_monad;
            rewrite ?print_each_run, ?Hopen, ?Hhead, ?Hparse, ?Hle);
    (split; [reflexivity |]);
    repeat first [ apply Forall_nil
                 | apply Forall_cons; [split; reflexivity |]
                 | apply prints_are_no_transfer
                 | apply Forall_app; split ].
Qed.

(** ** The claims on the sample catalog *)

(** C1, as stated, fails: with [touchItems] false the overwrite succeeds,
    the service has a view, and the run neither touches it nor records
    anything for it. *)
Lemma update_without_touchItems_leaves_views :
  supplied (Some "roads.zip") = true
  /\ In (EvSetSuccess (PBool true))
        (snd (overwriteFeatureService sample_world roads_service
                (Some "roads.zip") false false))
  /\ item_related_items roads_service "Service2Service" = Returns [roads_view]
  /\ fst (overwriteFeatureService sample_world roads_service
            (Some "roads.zip") false false)
     = Result (mkOutcome (PBool true)
                 [record_of roads_service (PStr "update") (PBool true)])
  /\ filter is_item_update
       (snd (overwriteFeatureService sample_world roads_service
               (Some "roads.zip") false false))
     = [].
Proof.
  repeat split. vm_compute. repeat first [left; reflexivity | right].
Qed.

Lemma successful_update_touches_every_view_witness :
  supplied (Some "roads.zip") = true
  /\ In (EvSetSuccess (PBool true))
        (snd (overwriteFeatureService sample_world roads_service
                (Some "roads.zip") true false))
  /\ item_related_items roads_service "Service2Service" = Returns [roads_view]
  /\ fst (overwriteFeatureService sample_world roads_service
            (Some "roads.zip") true false)
     = Result (mkOutcome (PBool true)
                 [record_of roads_service (PStr "update") (PBool true);
                  record_of roads_view (PStr "touch") (PBool true)]).
Proof.
  assert (H1 : supplied (Some "roads.zip") = true) by reflexivity.
  assert (H2 : In (EvSetSuccess (PBool true))
                  (snd (overwriteFeatureService sample_world roads_service
                          (Some "roads.zip") true false))).
  { vm_compute. repeat first [left; reflexivity | right]. }
  assert (H3 : item_related_items roads_service "Service2Service"
               = Returns [roads_view]) by reflexivity.
  refine (conj H1 (conj H2 (conj H3 _))).
  exact (proj1 (proj1 (successful_update_touches_every_view sample_world
                         roads_service (Some "roads.zip") false)
                  H1 H2 [roads_view] H3)).
Defined.

(** C2, as stated, fails: an update call that answers the truthy string
    "done" is recorded as a failure, and the toucher returns [False]. *)
Lemma truthy_answer_is_recorded_as_failure :
  item_update chatty_view = Returns (PStr "done")
  /\ truthy (PStr "done") = true
  /\ touchItem sample_world false chatty_view "" initial
     = (Normal false,
        mkState
          (mkOutcome PNone
             [record_of chatty_view (PStr "touch")
                (PStr "Failed, Outcome: 'done'")])
          [EvItemUpdate "v2"]).
Proof.
  repeat split.
Qed.

(** A stored name that is itself a path: line 183 compares the final
    components, so the update path "roads.zip" is accepted for the stored
    name "pub/roads.zip" and the overwrite is invoked. *)
Lemma same_final_component_is_accepted :
  is_url "roads.zip" = false
  /\ original_filename [archived_data] = Some "pub/roads.zip"
  /\ os_path_split_tail "roads.zip" <> "pub/roads.zip"
  /\ overwriteFeatureService sample_world
       (service_with archived_data []) (Some "roads.zip") false false
     = (Result (mkOutcome (PBool true)
                  [record_of (service_with archived_data [])
                     (PStr "update") (PBool true)]),
        [EvRelatedItems "s1" "Service2Data"; EvFromItem "s1";
         EvOverwrite "roads.zip"; EvSetSuccess (PBool true)]).
Proof.
  repeat split. cbv. discriminate.
Qed.

Lemma nothing_follows_a_failure_witness :
  snd (overwriteFeatureService sample_world roads_service
         (Some "roads.csv") true false)
  = ([EvRelatedItems "s1" "Service2Data"; EvFromItem "s1"]
     ++ EvSetSuccess (PBool false) :: [])%list
  /\ exists its,
       fst (overwriteFeatureService sample_world roads_service
              (Some "roads.csv") true false)
       = Result (mkOutcome (PBool false) its).
Proof.
  assert (H : snd (overwriteFeatureService sample_world roads_service
                     (Some "roads.csv") true false)
              = ([EvRelatedItems "s1" "Service2Data"; EvFromItem "s1"]
                 ++ EvSetSuccess (PBool false) :: [])%list) by reflexivity.
  refine (conj H _).
  exact (proj2 (proj2 (nothing_follows_a_failure sample_world roads_service
                         (Some "roads.csv") true false _ _ H))).
Defined.

Lemma other_item_type_is_rejected_witness :
  item_type roads_map <> "Feature Service"
  /\ snd (overwriteFeatureService sample_world roads_map
            (Some "roads.zip") true true)
     = [EvSetSuccess (PBool false)].
Proof.
  assert (H : item_type roads_map <> "Feature Service")
    by (cbv; discriminate).
  refine (conj H _).
  exact (proj1 (proj2 (other_item_type_is_rejected sample_world roads_map
                         (Some "roads.zip") true true H))).
Defined.

Lemma missing_data_item_stops_the_run_witness :
  item_type (service_with unnamed_data [roads_view]) = "Feature Service"
  /\ item_related_items (service_with unnamed_data [roads_view]) "Service2Data"
     = Returns [unnamed_data]
  /\ no_filename (item_name unnamed_data) = true
  /\ filter is_catalog_call
       (snd (overwriteFeatureService sample_world
               (service_with unnamed_data [roads_view])
               (Some "roads.zip") true false))
     = [EvRelatedItems "s1" "Service2Data"].
Proof.
  assert (H1 : item_type (service_with unnamed_data [roads_view])
               = "Feature Service") by reflexivity.
  assert (H2 : item_related_items (service_with unnamed_data [roads_view])
                 "Service2Data" = Returns [unnamed_data]) by reflexivity.
  assert (H3 : no_filename (item_name unnamed_data) = true) by reflexivity.
  refine (conj H1 (conj H2 (conj H3 _))).
  refine (proj2 (proj2 (missing_data_item_stops_the_run sample_world
                          (service_with unnamed_data [roads_view])
                          (Some "roads.zip") true false [unnamed_data]
                          H1 H2 _))).
  right. exists [], unnamed_data. split; [reflexivity | exact H3].
Defined.

Lemma local_name_mismatch_is_rejected_witness :
  item_type roads_service = "Feature Service"
  /\ item_related_items roads_service "Service2Data" = Returns [roads_data]
  /\ original_filename [roads_data] = Some "roads.zip"
  /\ is_url "/data/roads.csv" = false
  /\ os_path_split_tail "roads.zip" = "roads.zip"
  /\ os_path_split_tail "/data/roads.csv" <> "roads.zip"
  /\ Forall (fun e => is_overwrite e = false)
       (snd (overwriteFeatureService sample_world roads_service
               (Some "/data/roads.csv") true false))
  /\ fst (overwriteFeatureService sample_world roads_service
            (Some "/data/roads.csv") true false)
     = Result (mkOutcome (PBool false)
                 [record_of roads_service (PStr "verify")
                    (PStr "Update Filename '/data/roads.csv' does NOT match Original Filename used to Publish Service: 'roads.zip'")]).
Proof.
  assert (H1 : item_type roads_service = "Feature Service") by reflexivity.
  assert (H2 : item_related_items roads_service "Service2Data"
               = Returns [roads_data]) by reflexivity.
  assert (H3 : original_filename [roads_data] = Some "roads.zip")
    by reflexivity.
  assert (H4 : "roads.zip" <> "") by discriminate.
  assert (H5 : "/data/roads.csv" <> "") by discriminate.
  assert (H6 : is_url "/data/roads.csv" = false) by reflexivity.
  assert (H7 : os_path_split_tail "roads.zip" = "roads.zip") by reflexivity.
  assert (H8 : os_path_split_tail "/data/roads.csv" <> "roads.zip")
    by (cbv; discriminate).
  destruct (local_name_mismatch_is_rejected sample_world roads_service
              "/data/roads.csv" "roads.zip" true false [roads_data]
              H1 H2 H3 H4 H5 H6 (or_introl (conj H7 H8)))
    as (Hquiet & Hrecord & Hreturns & _).
  destruct (Hreturns sample_manager (Some 1451606400%Z) eq_refl eq_refl)
    as (o & Ho).
  refine (conj H1 (conj H2 (conj H3 (conj H6 (conj H7 (conj H8
            (conj Hquiet _))))))).
  rewrite Ho. f_equal. exact (Hrecord o Ho).
Defined.

Lemma unchanged_remote_source_is_skipped_witness :
  is_url "https://example.org/roads.zip" = true
  /\ serviceLastModified (properties sample_manager) = Returns (Some 1451606400)
  /\ fileLastModified sample_world "/tmp/roads.zip" = Returns None
  /\ strptime_gmt sample_world new_year_2015 = Returns 1420070400
  /\ (1420070400 <= 1451606400)%Z
  /\ fst (overwriteFeatureService sample_world roads_service
            (Some "https://example.org/roads.zip") true false)
     = Result (mkOutcome PNone
                 [record_of roads_service (PStr "download")
                    (PStr "No Change in URL Data")]).
Proof.
  assert (H1 : item_type roads_service = "Feature Service") by reflexivity.
  assert (H2 : item_related_items roads_service "Service2Data"
               = Returns [roads_data]) by reflexivity.
  assert (H3 : original_filename [roads_data] = Some "roads.zip")
    by reflexivity.
  assert (H4 : "roads.zip" <> "") by discriminate.
  assert (H5 : is_url "https://example.org/roads.zip" = true) by reflexivity.
  assert (H6 : fromitem_manager sample_world roads_service
               = Returns sample_manager) by reflexivity.
  assert (H7 : serviceLastModified (properties sample_manager)
               = Returns (Some 1451606400)) by reflexivity.
  assert (H8 : fileLastModified sample_world
                 (os_path_join (gettempdir sample_world) "roads.zip")
               = Returns None) by reflexivity.
  assert (H9 : effective_reference (Some 1451606400) None = Some 1451606400)
    by reflexivity.
  assert (H10 : urlopen_headers sample_world "https://example.org/roads.zip"
                = Returns [("Last-Modified", new_year_2015)]) by reflexivity.
  assert (H11 : dict_lookup "Last-Modified"
                  (dict_of_pairs [("Last-Modified", new_year_2015)])
                = Some new_year_2015) by reflexivity.
  assert (H12 : strptime_gmt sample_world new_year_2015 = Returns 1420070400)
    by reflexivity.
  assert (H13 : (1420070400 <= 1451606400)%Z) by lia.
  refine (conj H5 (conj H7 (conj H8 (conj H12 (conj H13 _))))).
  exact (proj1 (unchanged_remote_source_is_skipped sample_world roads_service
                  "https://example.org/roads.zip" "roads.zip" new_year_2015
                  true false [roads_data] sample_manager
                  (Some 1451606400) None 1451606400 1420070400
                  [("Last-Modified", new_year_2015)]
                  H1 H2 H3 H4 H5 H6 H7 H8 H9 H10 H11 H12 H13)).
Defined.

Lemma failure_string_flattening_witness :
  has_marker (failure_text ("Error Code: 400" ++ nl ++ "Invalid URL"))
  /\ failure_status ("Error Code: 400" ++ nl ++ "Invalid URL")
     = "Failed, Outcome: 'Error Code: 400 Invalid URL'"
  /\ ~ has_marker (failure_text ("Timeout" ++ nl ++ "on read"))
  /\ failure_status ("Timeout" ++ nl ++ "on read")
     = failure_text ("Timeout" ++ nl ++ "on read").
Proof.
  assert (H1 : has_marker
                 (failure_text ("Error Code: 400" ++ nl ++ "Invalid URL"))).
  { exists "Failed, Outcome: '", "Error Code",
      (": 400" ++ nl ++ "Invalid URL'"). split; reflexivity. }
  assert (H2 : ~ has_marker (failure_text ("Timeout" ++ nl ++ "on read"))).
  { intros H. apply marker_found in H. discriminate H. }
  refine (conj H1 (conj _ (conj H2 _))).
  - exact (proj1 (proj1 (failure_string_flattening _) H1)).
  - exact (proj2 (failure_string_flattening _) H2).
Defined.

(** ** Further properties of the code *)

(** *** Paths and schemes *)

Lemma append_assoc (a b c : string) : (a ++ b) ++ c = a ++ b ++ c.
Proof. induction a as [| x a IH]; cbn; [reflexivity | now rewrite IH]. Qed.

Lemma append_empty_r (a : string) : a ++ "" = a.
Proof. induction a as [| x a IH]; cbn; [reflexivity | now rewrite IH]. Qed.

Lemma split_tail_from_no_slash (p : string) :
  ~ In_string "/" p ->
  forall acc, split_tail_from acc p = acc ++ p.
Proof.
  induction p as [| c p IH]; intros Hp acc; cbn.
  - now rewrite append_empty_r.
  - cbn in Hp. destruct (Ascii.eqb c "/") eqn:Hc.
    + apply Ascii.eqb_eq in Hc. subst c. tauto.
    + rewrite IH by tauto. now rewrite append_assoc.
Qed.

(** A plain filename, one that holds no slash, is its own final
    component. *)
Lemma plain_filename_is_its_own_tail (p : string) :
  ~ In_string "/" p -> os_path_split_tail p = p.
Proof.
  intros Hp. unfold os_path_split_tail.
  now rewrite split_tail_from_no_slash.
Qed.

(** *** The response headers as a dictionary *)

Lemma dict_lookup_set_same {A : Type} (k : string) (v : A)
    (d : list (string * A)) :
  dict_lookup k (dict_set k v d) = Some v.
Proof.
  induction d as [| [k' v'] d IH]; cbn.
  - now rewrite String.eqb_refl.
  - destruct (String.eqb k k') eqn:E; cbn; rewrite ?String.eqb_refl, ?E; auto.
Qed.

Lemma dict_lookup_set_other {A : Type} (k k' : string) (v : A)
    (d : list (string * A)) :
  k' <> k -> dict_lookup k' (dict_set k v d) = dict_lookup k' d.
Proof.
  intros Hne. apply String.eqb_neq in Hne.
  induction d as [| [k0 v0] d IH]; cbn.
  - now rewrite Hne.
  - destruct (String.eqb k k0) eqn:E; cbn.
    + apply String.eqb_eq in E. subst k0. now rewrite Hne.
    + now rewrite IH.
Qed.

Lemma dict_set_keys {A : Type} (k : string) (v : A) (d : list (string * A)) :
  map fst (dict_set k v d)
  = if existsb (String.eqb k) (map fst d) then map fst d
    else (map fst d ++ [k])%list.
Proof.
  induction d as [| [k' v'] d IH]; cbn; [reflexivity |].
  destruct (String.eqb k k') eqn:E; cbn.
  - apply String.eqb_eq in E. now subst k'.
  - rewrite IH. now destruct (existsb (String.eqb k) (map fst d)).
Qed.

Lemma dict_set_NoDup {A : Type} (k : string) (v : A) (d : list (string * A)) :
  NoDup (map fst d) -> NoDup (map fst (dict_set k v d)).
Proof.
  intros Hd. rewrite dict_set_keys.
  destruct (existsb (String.eqb k) (map fst d)) eqn:E; [exact Hd |].
  apply NoDup_app_remove_l with (l := []). cbn.
  rewrite <- (rev_involutive (map fst d ++ [k])).
  apply NoDup_rev. rewrite rev_app_distr. cbn. constructor.
  - intros Hin. apply in_rev in Hin.
    assert (existsb (String.eqb k) (map fst d) = true).
    { apply existsb_exists. exists k. split; [exact Hin |].
      apply String.eqb_refl. }
    congruence.
  - now apply NoDup_rev.
Qed.

Lemma dict_lookup_app {A : Type} (k : string) (d1 d2 : list (string * A)) :
  dict_lookup k (d1 ++ d2)
  = match dict_lookup k d1 with
    | Some v => Some v
    | None => dict_lookup k d2
    end.
Proof.
  induction d1 as [| [k' v'] d1 IH]; cbn; [reflexivity |].
  now destruct (String.eqb k k').
Qed.

Lemma dict_fold_lookup {A : Type} (k : string) (pairs : list (string * A)) :
  forall d,
    dict_lookup k (fold_left (fun d kv => dict_set (fst kv) (snd kv) d) pairs d)
    = match dict_lookup k (rev pairs) with
      | Some v => Some v
      | None => dict_lookup k d
      end.
Proof.
  induction pairs as [| [k' v'] pairs IH]; intros d; cbn [fold_left rev].
  - reflexivity.
  - rewrite IH, dict_lookup_app. cbn [fst snd].
    destruct (dict_lookup k (rev pairs)); [reflexivity |].
    cbn. destruct (String.eqb k k') eqn:E.
    + apply String.eqb_eq in E. subst k'. apply dict_lookup_set_same.
    + apply String.eqb_neq in E. now apply dict_lookup_set_other.
Qed.

Lemma dict_fold_NoDup {A : Type} (pairs : list (string * A)) :
  forall d,
    NoDup (map fst d) ->
    NoDup (map fst (fold_left (fun d kv => dict_set (fst kv) (snd kv) d)
                      pairs d)).
Proof.
  induction pairs as [| kv pairs IH]; intros d Hd; cbn [fold_left].
  - exact Hd.
  - apply IH. now apply dict_set_NoDup.
Qed.

(** X2. [dict(headers)] on the header pairs of the response: a header
    name occurs once in the dictionary, and what is read under a name is
    the value of the last pair that carries it (so a repeated
    "Last-Modified" header is compared by its last occurrence); a name that
    no pair carries is absent. *)
Theorem header_dictionary_keeps_the_last_value (pairs : list (string * string))
    (name : string) :
  NoDup (map fst (dict_of_pairs pairs))
  /\ dict_lookup name (dict_of_pairs pairs) = dict_lookup name (rev pairs)
  /\ (dict_lookup name (dict_of_pairs pairs) = None <->
      ~ In name (map fst pairs)).
Proof.
  unfold dict_of_pairs. split; [apply dict_fold_NoDup; constructor |].
  assert (E : dict_lookup name
                (fold_left (fun d kv => dict_set (fst kv) (snd kv) d) pairs [])
              = dict_lookup name (rev pairs)).
  { rewrite dict_fold_lookup. now destruct (dict_lookup name (rev pairs)). }
  split; [exact E |]. rewrite E.
  assert (Hgen : forall d : list (string * string),
             dict_lookup name d = None <-> ~ In name (map fst d)).
  { induction d as [| [k v] d IH]; cbn; [tauto |].
    destruct (String.eqb name k) eqn:Ek.
    - apply String.eqb_eq in Ek. subst k.
      split; [discriminate | intros H; exfalso; auto].
    - apply String.eqb_neq in Ek. rewrite IH. split.
      + intros H [H' | H']; [congruence | auto].
      + intros H H'. auto. }
  rewrite Hgen, map_rev. split; intros H H'; apply H.
  - now apply in_rev in H'.
  - now apply in_rev.
Qed.

(** *** Telling a URL from a path *)

Lemma lower_char_idem (c : ascii) : lower_char (lower_char c) = lower_char c.
Proof. destruct c as [[] [] [] [] [] [] [] []]; reflexivity. Qed.

Lemma lower_char_colon (c : ascii) :
  Ascii.eqb (lower_char c) ":" = Ascii.eqb c ":".
Proof. destruct c as [[] [] [] [] [] [] [] []]; reflexivity. Qed.

Lemma lower_idem (s : string) : lower (lower s) = lower s.
Proof.
  induction s as [| c s IH]; cbn; [reflexivity |].
  now rewrite lower_char_idem, IH.
Qed.

Lemma before_colon_lower (s : string) :
  before_colon (lower s) = lower (before_colon s).
Proof.
  induction s as [| c s IH]; cbn; [reflexivity |].
  rewrite lower_char_colon. destruct (Ascii.eqb c ":"); cbn; [reflexivity |].
  now rewrite IH.
Qed.

Lemma before_colon_prefix (scheme rest : string) :
  ~ In_string ":" scheme ->
  before_colon (scheme ++ String ":" rest) = scheme.
Proof.
  induction scheme as [| c scheme IH]; intros H; cbn.
  - reflexivity.
  - cbn in H. destruct (Ascii.eqb c ":") eqn:E.
    + apply Ascii.eqb_eq in E. subst c. tauto.
    + rewrite IH by tauto. reflexivity.
Qed.

Lemma before_colon_whole (scheme : string) :
  ~ In_string ":" scheme -> before_colon scheme = scheme.
Proof.
  induction scheme as [| c scheme IH]; intros H; cbn.
  - reflexivity.
  - cbn in H. destruct (Ascii.eqb c ":") eqn:E.
    + apply Ascii.eqb_eq in E. subst c. tauto.
    + rewrite IH by tauto. reflexivity.
Qed.

(** X3. Whether an update source is fetched from the network depends only
    on what stands before its first colon, read in any case: the text after
    the colon plays no part, upper and lower case are the same, and a
    source with no colon counts as remote exactly when the whole of it is
    one of the three scheme names. *)
Theorem scheme_test_reads_the_prefix_in_any_case (scheme rest : string) :
  ~ In_string ":" scheme ->
  is_url (scheme ++ ":" ++ rest) = is_url scheme
  /\ is_url (lower (scheme ++ ":" ++ rest)) = is_url (scheme ++ ":" ++ rest)
  /\ (is_url scheme = true <->
      lower scheme = "ftp" \/ lower scheme = "http" \/ lower scheme = "https").
Proof.
  intros H. unfold is_url. cbn [append].
  rewrite before_colon_lower, lower_idem.
  rewrite before_colon_prefix, before_colon_whole by exact H.
  repeat split.
  - rewrite !orb_true_iff, !String.eqb_eq. tauto.
  - rewrite !orb_true_iff, !String.eqb_eq. tauto.
Qed.

Lemma scheme_test_reads_the_prefix_in_any_case_witness :
  ~ In_string ":" "HTTPS"
  /\ is_url ("HTTPS" ++ ":" ++ "//example.org/roads.zip") = true
  /\ is_url ("C" ++ ":" ++ "/data/roads.zip") = false.
Proof.
  assert (H : forall s, s = "HTTPS" \/ s = "C" -> ~ In_string ":" s).
  { intros s [-> | ->] Hin; cbn in Hin;
      repeat (destruct Hin as [Hin | Hin]; [discriminate Hin |]); exact Hin. }
  refine (conj (H _ (or_introl eq_refl)) (conj _ _)).
  - exact (eq_trans
             (proj1 (scheme_test_reads_the_prefix_in_any_case "HTTPS"
                       "//example.org/roads.zip" (H _ (or_introl eq_refl))))
             eq_refl).
  - exact (eq_trans
             (proj1 (scheme_test_reads_the_prefix_in_any_case "C"
                       "/data/roads.zip" (H _ (or_intror eq_refl))))
             eq_refl).
Defined.

(** *** The last edit of the service *)

(** X4. The last edit of the service is absent, and nothing is raised,
    when the service lists no layers, or its first layer carries no
    editing information, or that information carries no last-edit date or
    a date of [None] or [0]. *)
Theorem last_edit_absent_without_a_date (props layer info : list (string * pyval))
    (others : list pyval) :
  dict_lookup "layers" props = None
  \/ dict_lookup "layers" props = Some (PList [])
  \/ (dict_lookup "layers" props = Some (PList (PDict layer :: others))
      /\ (dict_lookup "editingInfo" layer = None
          \/ (dict_lookup "editingInfo" layer = Some (PDict info)
              /\ (dict_lookup "lastEditDate" info = None
                  \/ dict_lookup "lastEditDate" info = Some PNone
                  \/ dict_lookup "lastEditDate" info = Some (PInt 0))))) ->
  serviceLastModified props = Returns None.
Proof.
  unfold serviceLastModified.
  intros [-> | [-> | (-> & [Hinfo | (Hinfo & [Hd | [Hd | Hd]])])]];
    cbn; rewrite ?Hinfo; cbn; rewrite ?Hd; reflexivity.
Qed.

Lemma last_edit_absent_without_a_date_witness :
  dict_lookup "layers" [("layers", PList [PDict [("name", PStr "roads")]])]
  = Some (PList [PDict [("name", PStr "roads")]])
  /\ serviceLastModified [("layers", PList [PDict [("name", PStr "roads")]])]
     = Returns None.
Proof.
  refine (conj eq_refl _).
  exact (last_edit_absent_without_a_date
           [("layers", PList [PDict [("name", PStr "roads")]])]
           [("name", PStr "roads")] [] []
           (or_intror (or_intror (conj eq_refl (or_introl eq_refl))))).
Defined.

(** X5. When the first layer carries a last-edit date of [ms]
    milliseconds, not [0] and within the years a [datetime] can hold, the
    last edit of the service is that date cut to whole seconds (toward
    zero); the layers after the first are not looked at. *)
Theorem last_edit_is_the_first_layers_date (props layer info : list (string * pyval))
    (others : list pyval) (ms : Z) :
  dict_lookup "layers" props = Some (PList (PDict layer :: others)) ->
  dict_lookup "editingInfo" layer = Some (PDict info) ->
  dict_lookup "lastEditDate" info = Some (PInt ms) ->
  ms <> 0%Z ->
  (-62135596800 <= Z.quot ms 1000 <= 253402300799)%Z ->
  serviceLastModified props = Returns (Some (Z.quot ms 1000)).
Proof.
  intros Hl Hi Hd Hms [Hlo Hhi]. unfold serviceLastModified.
  rewrite Hl. cbn. rewrite Hi. cbn. rewrite Hd. cbn.
  apply Z.eqb_neq in Hms. rewrite Hms. cbn.
  unfold utcfromtimestamp.
  apply Z.leb_le in Hlo, Hhi. rewrite Hlo, Hhi. reflexivity.
Qed.

Lemma last_edit_is_the_first_layers_date_witness :
  serviceLastModified (properties sample_manager)
  = Returns (Some 1451606400%Z).
Proof.
  refine (last_edit_is_the_first_layers_date (properties sample_manager)
            [("editingInfo", PDict [("lastEditDate", PInt 1451606400000)])]
            [("lastEditDate", PInt 1451606400000)] [] 1451606400000
            eq_refl eq_refl eq_refl _ _).
  - discriminate.
  - split; discriminate.
Defined.

(** *** Runs without an update source *)

Lemma touch_trace_touch_mode (w : World) (verbose : bool) (item : Item)
    (message : string) :
  Forall (fun e => is_touch_mode_event e = true)
    (touch_trace w verbose item message).
Proof.
  unfold touch_trace. destruct verbose; cbn; repeat constructor.
Qed.

Lemma cascade_trace_touch_mode (w : World) (verbose : bool)
    (views : list Item) :
  Forall (fun e => is_touch_mode_event e = true)
    (cascade_trace w verbose views).
Proof.
  unfold cascade_trace. induction views as [| view views IH]; cbn.
  - constructor.
  - apply Forall_app. split; [apply touch_trace_touch_mode | exact IH].
Qed.

Ltac touch_mode_trace :=
  repeat first
    [ apply touch_trace_touch_mode
    | apply cascade_trace_touch_mode
    | apply Forall_nil
    | apply Forall_cons; [reflexivity |]
    | apply Forall_app; split ].

Lemma no_source_trace (w : World) (item : Item)
    (updateFile : option string) (touchItems verbose : bool) :
  supplied updateFile = false ->
  Forall (fun e => is_touch_mode_event e = true)
    (snd (overwriteFeatureService w item updateFile touchItems verbose)).
Proof.
  intros Hsup.
  unfold overwriteFeatureService, body, primaryAction, cascade, initial.
  cbn [snd]. rewrite Hsup.
  destruct (String.eqb (item_type item) "Feature Service"); cbn [negb].
  - run_monad.
    destruct (item_related_items item "Service2Data") as [dataItems | e];
      [| cbn; touch_mode_trace].
    destruct (no_filename (original_filename dataItems));
      [cbn; touch_mode_trace |].
    destruct touchItems.
    + rewrite touchItem_run. cbn [st_outcome st_trace success items].
      destruct (touch_ok item); cbn [eq_True].
      * rewrite touchViews_run.
        destruct (item_related_items item "Service2Service");
          cbn [st_trace snd]; touch_mode_trace.
      * cbn [st_trace snd]. touch_mode_trace.
    + cbn. touch_mode_trace.
  - destruct touchItems; cbn; touch_mode_trace.
Qed.

(** X6. Without an update source ([None] or the empty string) the
    function never reaches the layer-collection manager, the file system
    or the network, and never overwrites: whatever the catalog answers,
    the run only prints, queries relationships, updates items and assigns
    the overall success. *)
Theorem no_source_never_overwrites (w : World) (item : Item)
    (updateFile : option string) (touchItems verbose : bool) :
  supplied updateFile = false ->
  Forall (fun e => is_touch_mode_event e = true)
    (snd (overwriteFeatureService w item updateFile touchItems verbose)).
Proof. apply no_source_trace. Qed.

Lemma no_source_never_overwrites_witness :
  supplied (Some "") = false
  /\ Forall (fun e => is_touch_mode_event e = true)
       (snd (overwriteFeatureService sample_world roads_service (Some "")
               true true)).
Proof.
  exact (conj eq_refl
           (no_source_never_overwrites sample_world roads_service (Some "")
              true true eq_refl)).
Defined.

(** X7. Touch-only mode.  For a Feature Service with a named data item,
    no update source and [touchItems] true, the function touches the item
    itself and the overall success is the result of that touch.  A failed
    touch ends the run with its single record and the views are not even
    queried; a successful one is followed by the query for the views, and
    the outcome holds the record of the item followed by one record per
    view. *)
Theorem touch_only_mode (w : World) (item : Item) (updateFile : option string)
    (verbose : bool) (dataItems : list Item) :
  item_type item = "Feature Service" ->
  item_related_items item "Service2Data" = Returns dataItems ->
  no_filename (original_filename dataItems) = false ->
  supplied updateFile = false ->
  (touch_ok item = false ->
   overwriteFeatureService w item updateFile true verbose
   = (Result (mkOutcome (PBool false)
                [record_of item (PStr "touch") (touch_status w item)]),
      EvRelatedItems (item_id item) "Service2Data"
      :: touch_trace w verbose item (nl ++ "Touching Item details...")%string
      ++ [EvSetSuccess (PBool false)]))
  /\ (touch_ok item = true ->
      forall views,
        item_related_items item "Service2Service" = Returns views ->
        overwriteFeatureService w item updateFile true verbose
        = (Result (mkOutcome (PBool true)
                     (record_of item (PStr "touch") (touch_status w item)
                      :: map (view_record w) views)),
           EvRelatedItems (item_id item) "Service2Data"
           :: touch_trace w verbose item (nl ++ "Touching Item details...")%string
           ++ EvSetSuccess (PBool true)
              :: EvRelatedItems (item_id item) "Service2Service"
              :: cascade_trace w verbose views)).
Proof.
  intros Htype Hdata Hname Hsup.
  unfold overwriteFeatureService, body, primaryAction, cascade, initial.
  rewrite Htype, String.eqb_refl, Hsup. run_monad. rewrite Hdata. run_monad.
  rewrite Hname. run_monad. rewrite touchItem_run.
  cbn [st_outcome st_trace success items app].
  split.
  - intros Hok. rewrite Hok. cbn [eq_True fst snd st_trace st_outcome].
    rewrite <- ?app_assoc. reflexivity.
  - intros Hok views Hviews. rewrite Hok. cbn [eq_True].
    rewrite touchViews_run, Hviews.
    cbn [fst snd st_trace st_outcome success items app].
    rewrite <- ?app_assoc. reflexivity.
Qed.

Lemma touch_only_mode_witness :
  supplied None = false
  /\ touch_ok roads_service = true
  /\ overwriteFeatureService sample_world roads_service None true false
     = (Result (mkOutcome (PBool true)
                  [record_of roads_service (PStr "touch") (PBool true);
                   record_of roads_view (PStr "touch") (PBool true)]),
        [EvRelatedItems "s1" "Service2Data"; EvItemUpdate "s1";
         EvSetSuccess (PBool true); EvRelatedItems "s1" "Service2Service";
         EvItemUpdate "v1"]).
Proof.
  refine (conj eq_refl (conj eq_refl _)).
  exact (proj2 (touch_only_mode sample_world roads_service None false
                  [roads_data] eq_refl eq_refl eq_refl eq_refl)
           eq_refl [roads_view] eq_refl).
Defined.

(** X8. With no update source and [touchItems] false nothing is touched:
    for a Feature Service with a named data item the outcome keeps the
    overall success [None] and holds one record whose action and result
    are both [None], and the "Service2Data" query is all the run does. *)
Theorem nothing_to_do_is_recorded (w : World) (item : Item)
    (updateFile : option string) (verbose : bool) (dataItems : list Item) :
  item_type item = "Feature Service" ->
  item_related_items item "Service2Data" = Returns dataItems ->
  no_filename (original_filename dataItems) = false ->
  supplied updateFile = false ->
  overwriteFeatureService w item updateFile false verbose
  = (Result (mkOutcome PNone [record_of item PNone PNone]),
     [EvRelatedItems (item_id item) "Service2Data"]).
Proof.
  intros Htype Hdata Hname Hsup.
  unfold overwriteFeatureService, body, primaryAction, cascade, initial.
  rewrite Htype, String.eqb_refl, Hsup. run_monad. rewrite Hdata. run_monad.
  rewrite Hname. run_monad. reflexivity.
Qed.

Lemma nothing_to_do_is_recorded_witness :
  supplied None = false
  /\ overwriteFeatureService sample_world roads_service None false true
     = (Result (mkOutcome PNone [record_of roads_service PNone PNone]),
        [EvRelatedItems "s1" "Service2Data"]).
Proof.
  refine (conj eq_refl _).
  exact (nothing_to_do_is_recorded sample_world roads_service None true
           [roads_data] eq_refl eq_refl eq_refl eq_refl).
Defined.

(** *** Errors that reach the caller *)

(** X9. An error raised by the "Service2Data" query, or by the lookup of
    the layer-collection manager for a supplied source, is not turned into
    a record: it reaches the caller, no outcome is returned, and the run
    has done nothing else than the calls up to the one that raised. *)
Theorem setup_errors_reach_the_caller (w : World) (item : Item)
    (updateFile : option string) (touchItems verbose : bool) (e : string) :
  item_type item = "Feature Service" ->
  (item_related_items item "Service2Data" = Raises e ->
   overwriteFeatureService w item updateFile touchItems verbose
   = (Exception e, [EvRelatedItems (item_id item) "Service2Data"]))
  /\ (forall dataItems,
        item_related_items item "Service2Data" = Returns dataItems ->
        no_filename (original_filename dataItems) = false ->
        supplied updateFile = true ->
        fromitem_manager w item = Raises e ->
        overwriteFeatureService w item updateFile touchItems verbose
        = (Exception e,
           [EvRelatedItems (item_id item) "Service2Data";
            EvFromItem (item_id item)])).
Proof.
  intros Htype.
  unfold overwriteFeatureService, body, primaryAction, updateFromSource,
    cascade, initial.
  rewrite Htype, String.eqb_refl. run_monad. split.
  - intros ->. reflexivity.
  - intros dataItems -> -> -> ->. reflexivity.
Qed.

Lemma setup_errors_reach_the_caller_witness :
  item_type (mkItem "s9" "Roads" "Feature Service" None (Returns (PBool true))
               (fun _ => Raises "Connection reset")) = "Feature Service"
  /\ overwriteFeatureService sample_world
       (mkItem "s9" "Roads" "Feature Service" None (Returns (PBool true))
          (fun _ => Raises "Connection reset"))
       (Some "roads.zip") true false
     = (Exception "Connection reset", [EvRelatedItems "s9" "Service2Data"]).
Proof.
  refine (conj eq_refl _).
  exact (proj1 (setup_errors_reach_the_caller sample_world
                  (mkItem "s9" "Roads" "Feature Service" None
                     (Returns (PBool true))
                     (fun _ => Raises "Connection reset"))
                  (Some "roads.zip") true false "Connection reset" eq_refl)
           eq_refl).
Defined.

(** X10. When the query for the views raises after the primary action has
    succeeded, the error reaches the caller and the outcome is lost: the
    function returns nothing, although the overall success had been set to
    [True], and the query is the last thing the run does. *)
Theorem views_query_error_loses_the_outcome (w : World) (item : Item)
    (updateFile : option string) (verbose : bool) (e : string) :
  In (EvSetSuccess (PBool true))
     (snd (overwriteFeatureService w item updateFile true verbose)) ->
  item_related_items item "Service2Service" = Raises e ->
  fst (overwriteFeatureService w item updateFile true verbose) = Exception e
  /\ exists before,
       snd (overwriteFeatureService w item updateFile true verbose)
       = (before ++ [EvSetSuccess (PBool true);
                     EvRelatedItems (item_id item) "Service2Service"])%list.
Proof.
  intros Hset Hviews.
  destruct (run_shape w item updateFile true verbose)
    as (tr & its & Htr & Hshape).
  cbv zeta in Hshape.
  assert (Hin : In (EvSetSuccess (PBool true)) tr -> False).
  { intros Hv. apply unset_not_set_success in Htr.
    rewrite Forall_forall in Htr. specialize (Htr _ Hv). discriminate. }
  destruct Hshape as [(E & _) | [(E & _) | (_ & Hcascade)]].
  - exfalso. rewrite E in Hset. auto.
  - exfalso. rewrite E in Hset. apply in_app_or in Hset.
    destruct Hset as [Hv | [Hv | []]]; [auto | discriminate].
  - destruct Hcascade
      as [(Hf & _) | [(_ & e' & He & Etr & Eres) | (_ & views & Hv & _)]];
      try congruence.
    rewrite Hviews in He. injection He as <-.
    split; [exact Eres | exists tr; exact Etr].
Qed.

Lemma views_query_error_loses_the_outcome_witness :
  fst (overwriteFeatureService sample_world
         (mkItem "s8" "Roads" "Feature Service" None (Returns (PBool true))
            (fun kind =>
               if String.eqb kind "Service2Data" then Returns [roads_data]
               else Raises "Connection reset"))
         (Some "roads.zip") true false)
  = Exception "Connection reset".
Proof.
  refine (proj1 (views_query_error_loses_the_outcome sample_world
                   (mkItem "s8" "Roads" "Feature Service" None
                      (Returns (PBool true))
                      (fun kind =>
                         if String.eqb kind "Service2Data"
                         then Returns [roads_data]
                         else Raises "Connection reset"))
                   (Some "roads.zip") false "Connection reset" _ eq_refl)).
  vm_compute. repeat first [left; reflexivity | right].
Defined.

(** *** Fetching a remote source *)

Lemma quiet_not_overwrite (tr : list event) :
  Forall (fun e => quiet e = true) tr ->
  Forall (fun e => is_overwrite e = false) tr.
Proof. apply Forall_impl. intros [] H; cbn in *; congruence. Qed.

Lemma filter_none (p : event -> bool) (tr : list event) :
  Forall (fun e => p e = false) tr -> filter p tr = [].
Proof.
  induction 1 as [| e tr He _ IH]; cbn; [reflexivity |]. now rewrite He.
Qed.

Lemma prints_filtered {A : Type} (p : event -> bool) (line : A -> string)
    (xs : list A) :
  (forall l, p (EvPrint l) = false) ->
  filter p (map (fun x => EvPrint (line x)) xs) = [].
Proof.
  intros Hp. induction xs as [| x xs IH]; cbn; [reflexivity |].
  now rewrite Hp.
Qed.

Ltac filter_trace :=
  rewrite <- ?app_assoc; cbn [app];
  repeat (rewrite ?filter_app; cbn [filter is_url_retrieve is_overwrite];
          rewrite ?prints_filtered by reflexivity);
  cbn [app].

Ltac close_fetch :=
  eexists; split; [| split];
  [ | | lazymatch goal with
        | |- (Returned _, _) = _ =>
            eapply regroup_last; rewrite <- ?app_assoc; reflexivity
        | |- _ => rewrite <- ?app_assoc; reflexivity
        end ];
  [ quiet_trace | filter_trace; reflexivity ].

Lemma download_not_opened (w : World) (verbose : bool) (item : Item)
    (url orig e : string) (edited copied : option datetime) (s : State) :
  fileLastModified w (os_path_join (gettempdir w) orig) = Returns copied ->
  urlopen_headers w url = Raises e ->
  exists tr,
    Forall (fun ev => quiet ev = true) tr
    /\ filter is_url_retrieve tr = []
    /\ downloadWebData w verbose item url orig edited s
       = (Returned
            (mkOutcome (PBool false)
               (items (st_outcome s)
                ++ [record_of item (PStr "download")
                      (PStr (download_failure_text e))])),
          mkState
            (mkOutcome (PBool false)
               (items (st_outcome s)
                ++ [record_of item (PStr "download")
                      (PStr (download_failure_text e))]))
            ((st_trace s ++ tr) ++ [EvSetSuccess (PBool false)])).
Proof.
  intros Hcopy Hopen. unfold fileLastModified in Hcopy.
  remember (downloadWebData w verbose item url orig edited s) as r eqn:Hr.
  unfold downloadWebData, download_failure_text in *.
  repeat (run_monad_in Hr; rewrite ?Hopen in Hr;
          cbn [negb bind_call] in Hcopy; try split_on_answer Hr);
    run_monad_in Hr; subst r;
    cbn [negb bind_call] in Hcopy; try discriminate Hcopy.
  all: close_fetch.
Qed.

Lemma download_fetched (w : World) (verbose : bool) (item : Item)
    (url orig : string) (edited copied : option datetime)
    (headers : list (string * string)) (s : State) :
  fileLastModified w (os_path_join (gettempdir w) orig) = Returns copied ->
  urlopen_headers w url = Returns headers ->
  needs_download w (effective_reference edited copied) headers = true ->
  exists tr,
    Forall (fun ev => quiet ev = true) tr
    /\ filter is_url_retrieve tr
       = [EvUrlRetrieve url (os_path_join (gettempdir w) orig)]
    /\ downloadWebData w verbose item url orig edited s
       = match urlretrieve w url (os_path_join (gettempdir w) orig) with
         | Returns path =>
             (Normal path, mkState (st_outcome s) (st_trace s ++ tr))
         | Raises e =>
             (Returned
                (mkOutcome (PBool false)
                   (items (st_outcome s)
                    ++ [record_of item (PStr "download")
                          (PStr (download_failure_text e))])),
              mkState
                (mkOutcome (PBool false)
                   (items (st_outcome s)
                    ++ [record_of item (PStr "download")
                          (PStr (download_failure_text e))]))
                ((st_trace s ++ tr) ++ [EvSetSuccess (PBool false)]))
         end.
Proof.
  intros Hcopy Hopen Hneed.
  unfold fileLastModified in Hcopy.
  unfold needs_download, effective_reference in Hneed.
  remember (downloadWebData w verbose item url orig edited s) as r eqn:Hr.
  unfold downloadWebData, download_failure_text in *.
  repeat (run_monad_in Hr; rewrite ?Hopen, ?print_each_run in Hr;
          cbn [negb bind_call] in Hcopy; try split_on_answer Hr);
    run_monad_in Hr; subst r;
    cbn [negb bind_call] in Hcopy; try discriminate Hcopy;
    try (injection Hcopy as <-);
    cbn [negb] in Hneed;
    try match goal with
        | H : Z.leb _ _ = true |- _ => rewrite H in Hneed
        end;
    try discriminate Hneed.
  all: close_fetch.
Qed.

Lemma cascade_trace_filtered (p : event -> bool) (w : World) (verbose : bool)
    (views : list Item) :
  (forall l, p (EvPrint l) = false) ->
  (forall i, p (EvItemUpdate i) = false) ->
  filter p (cascade_trace w verbose views) = [].
Proof.
  intros Hp Hu. unfold cascade_trace.
  induction views as [| view views IH]; [reflexivity |].
  cbn [flat_map]. rewrite filter_app, IH. unfold touch_trace.
  destruct verbose; cbn; rewrite ?Hp, ?Hu; reflexivity.
Qed.

Lemma overwrite_trace_overwrites (w : World) (verbose : bool) (item : Item)
    (manager : Manager) (path : string) :
  filter is_overwrite (overwrite_trace w verbose item manager path)
  = [EvOverwrite path]
  /\ filter is_url_retrieve (overwrite_trace w verbose item manager path) = [].
Proof. unfold overwrite_trace. destruct verbose; split; reflexivity. Qed.

Ltac reach_the_download Htype Hdata Horig Hname Hsup Hmgr Hedit Hurl :=
  unfold overwriteFeatureService, body, primaryAction, updateFromSource,
    cascade, initial, supplied, no_filename;
  repeat (run_monad;
          rewrite ?Htype, ?Hdata, ?Horig, ?Hname, ?Hsup, ?Hmgr, ?Hedit, ?Hurl;
          cbn [filename_text String.eqb Ascii.eqb Bool.eqb]).

(** X11. A download that fails stops the run.  For a Feature Service with
    a named data item and a remote update source, when the URL cannot be
    opened, or the resource has to be fetched and the fetch raises, the
    outcome has success [False] and the single record, of action
    "download", that quotes the error as it is (newlines are kept, unlike
    in the records of touch and update), and the overwrite is not
    invoked. *)
Theorem failed_download_stops_the_run (w : World) (item : Item)
    (url orig e : string) (touchItems verbose : bool)
    (dataItems : list Item) (manager : Manager)
    (edited copied : option datetime) :
  item_type item = "Feature Service" ->
  item_related_items item "Service2Data" = Returns dataItems ->
  original_filename dataItems = Some orig ->
  orig <> "" ->
  is_url url = true ->
  fromitem_manager w item = Returns manager ->
  serviceLastModified (properties manager) = Returns edited ->
  fileLastModified w (os_path_join (gettempdir w) orig) = Returns copied ->
  (urlopen_headers w url = Raises e
   \/ exists headers,
        urlopen_headers w url = Returns headers
        /\ needs_download w (effective_reference edited copied) headers = true
        /\ urlretrieve w url (os_path_join (gettempdir w) orig) = Raises e) ->
  fst (overwriteFeatureService w item (Some url) touchItems verbose)
  = Result (mkOutcome (PBool false)
              [record_of item (PStr "download")
                 (PStr ("Failed to Download data from url, Outcome: '"
                        ++ e ++ "'"))])
  /\ Forall (fun ev => is_overwrite ev = false)
       (snd (overwriteFeatureService w item (Some url) touchItems verbose)).
Proof.
  intros Htype Hdata Horig Hname Hurl Hmgr Hedit Hcopy Hfail.
  pose proof (is_url_nonempty url Hurl) as Hsup.
  apply String.eqb_neq in Hname, Hsup.
  reach_the_download Htype Hdata Horig Hname Hsup Hmgr Hedit Hurl.
  destruct Hfail as [Hopen | (headers & Hopen & Hneed & Hget)].
  - destruct verbose, edited; run_monad;
      match goal with
      | |- context [downloadWebData ?w ?v ?i ?u ?o ?sm ?s] =>
          destruct (download_not_opened w v i u o e sm copied s Hcopy Hopen)
            as (tr & Hq & _ & E)
      end;
      rewrite E; cbn [fst snd st_trace st_outcome success items app];
      (split; [reflexivity |]);
      repeat first [ apply Forall_nil
                   | apply quiet_not_overwrite; assumption
                   | apply Forall_cons; [reflexivity |]
                   | apply Forall_app; split ].
  - destruct verbose, edited; run_monad;
      match goal with
      | |- context [downloadWebData ?w ?v ?i ?u ?o ?sm ?s] =>
          destruct (download_fetched w v i u o sm copied headers s
                      Hcopy Hopen Hneed)
            as (tr & Hq & _ & E)
      end;
      rewrite E, Hget; cbn [fst snd st_trace st_outcome success items app];
      (split; [reflexivity |]);
      repeat first [ apply Forall_nil
                   | apply quiet_not_overwrite; assumption
                   | apply Forall_cons; [reflexivity |]
                   | apply Forall_app; split ].
Qed.

Lemma failed_download_stops_the_run_witness :
  is_url "ftp://example.org/roads.zip" = true
  /\ urlopen_headers refusing_world "ftp://example.org/roads.zip"
     = Raises ("Error Code: 404" ++ nl ++ "Not Found")
  /\ fst (overwriteFeatureService refusing_world roads_service
            (Some "ftp://example.org/roads.zip") true false)
     = Result (mkOutcome (PBool false)
                 [record_of roads_service (PStr "download")
                    (PStr ("Failed to Download data from url, Outcome: '"
                           ++ ("Error Code: 404" ++ nl ++ "Not Found")
                           ++ "'"))]).
Proof.
  refine (conj eq_refl (conj eq_refl _)).
  refine (proj1 (failed_download_stops_the_run refusing_world roads_service
                   "ftp://example.org/roads.zip" "roads.zip"
                   ("Error Code: 404" ++ nl ++ "Not Found") true false
                   [roads_data] sample_manager (Some 1451606400%Z) None
                   eq_refl eq_refl eq_refl _ eq_refl eq_refl eq_refl eq_refl
                   (or_introl eq_refl))).
  discriminate.
Defined.

(** X12. A resource that has to be fetched is fetched once, from the
    update source into the temporary directory under the original
    filename, and the overwrite is then invoked once, with the path the
    fetch returned and not with the URL; in the outcome the overall
    success and the first record are those of that overwrite. *)
Theorem fetched_file_is_what_is_overwritten (w : World) (item : Item)
    (url orig path : string) (touchItems verbose : bool)
    (dataItems : list Item) (manager : Manager)
    (edited copied : option datetime) (headers : list (string * string)) :
  item_type item = "Feature Service" ->
  item_related_items item "Service2Data" = Returns dataItems ->
  original_filename dataItems = Some orig ->
  orig <> "" ->
  is_url url = true ->
  fromitem_manager w item = Returns manager ->
  serviceLastModified (properties manager) = Returns edited ->
  fileLastModified w (os_path_join (gettempdir w) orig) = Returns copied ->
  urlopen_headers w url = Returns headers ->
  needs_download w (effective_reference edited copied) headers = true ->
  urlretrieve w url (os_path_join (gettempdir w) orig) = Returns path ->
  filter is_url_retrieve
    (snd (overwriteFeatureService w item (Some url) touchItems verbose))
  = [EvUrlRetrieve url (os_path_join (gettempdir w) orig)]
  /\ filter is_overwrite
       (snd (overwriteFeatureService w item (Some url) touchItems verbose))
     = [EvOverwrite path]
  /\ forall o,
       fst (overwriteFeatureService w item (Some url) touchItems verbose)
       = Result o ->
       success o = PBool (overwrite_succeeds (overwrite manager path))
       /\ hd_error (items o)
          = Some (record_of item (PStr "update")
                    (overwrite_status w (overwrite manager path))).
Proof.
  intros Htype Hdata Horig Hname Hurl Hmgr Hedit Hcopy Hopen Hneed Hget.
  pose proof (is_url_nonempty url Hurl) as Hsup.
  apply String.eqb_neq in Hname, Hsup.
  reach_the_download Htype Hdata Horig Hname Hsup Hmgr Hedit Hurl.
  destruct verbose, edited; run_monad;
    match goal with
    | |- context [downloadWebData ?w ?v ?i ?u ?o ?sm ?s] =>
        destruct (download_fetched w v i u o sm copied headers s
                    Hcopy Hopen Hneed)
          as (tr & Hq & Hf & E)
    end;
    rewrite E, Hget; run_monad; rewrite performOverwrite_run;
    cbn [fst snd st_trace st_outcome success items app eq_True];
    pose proof (filter_none is_overwrite tr (quiet_not_overwrite tr Hq)) as Ho;
    destruct (overwrite_trace_overwrites w true item manager path)
      as (Hov1 & Hov2);
    destruct (overwrite_trace_overwrites w false item manager path)
      as (Hov3 & Hov4);
    destruct touchItems, (overwrite_succeeds (overwrite manager path));
    cbn [andb]; rewrite ?touchViews_run;
    try destruct (item_related_items item "Service2Service");
    cbn [fst snd st_trace st_outcome success items app];
    rewrite <- ?app_assoc; cbn [app];
    repeat (cbn [filter is_url_retrieve is_overwrite app];
            rewrite ?filter_app, ?Hf, ?Ho, ?Hov1, ?Hov2, ?Hov3, ?Hov4,
              ?cascade_trace_filtered by reflexivity);
    (split; [reflexivity | split; [reflexivity |]]);
    intros o Ho'; inversion Ho'; subst; cbn; auto.
Qed.

Lemma fetched_file_is_what_is_overwritten_witness :
  needs_download fresh_world (Some 1420070400%Z)
    [("Last-Modified", new_year_2016)] = true
  /\ filter is_overwrite
       (snd (overwriteFeatureService fresh_world roads_service
               (Some "https://example.org/roads.zip") true false))
     = [EvOverwrite "/tmp/roads.zip"].
Proof.
  refine (conj eq_refl _).
  refine (proj1 (proj2 (fetched_file_is_what_is_overwritten fresh_world
                          roads_service "https://example.org/roads.zip"
                          "roads.zip" "/tmp/roads.zip" true false
                          [roads_data] stale_manager (Some 1420070400%Z) None
                          [("Last-Modified", new_year_2016)]
                          eq_refl eq_refl eq_refl _ eq_refl eq_refl eq_refl
                          eq_refl eq_refl eq_refl eq_refl))).
  discriminate.
Defined.

(** *** The records of an outcome *)

Lemma failed_status_is_text (w : World) :
  (forall answer,
     PBool (overwrite_succeeds answer) = PBool false ->
     exists text, overwrite_status w answer = PStr text)
  /\ (forall item,
        PBool (touch_ok item) = PBool false ->
        exists text, touch_status w item = PStr text).
Proof.
  split.
  - intros answer H. injection H as H. unfold overwrite_status.
    rewrite H. eauto.
  - intros item H. injection H as H. unfold touch_ok, touch_status in *.
    destruct (item_update item) as [v | e]; [rewrite H |]; eauto.
Qed.

Ltac close_records :=
  match goal with
  | Hr : ?r = _, H : ?r = (_, _) |- _ =>
      rewrite Hr in H; injection H as <- <-
  end;
  first
    [ left; eexists; reflexivity
    | right; eexists; split; [reflexivity |]; split; [reflexivity |];
      split; [| split];
      [ cbn [st_outcome success rec_result record_of];
        first [ discriminate
              | intros _; eexists; reflexivity
              | apply failed_status_is_text ]
      | cbn [st_outcome success];
        first [left; reflexivity | right; eexists; reflexivity]
      | first [left; reflexivity | right; reflexivity] ] ].

Lemma primaryAction_records (w : World) (item : Item)
    (updateFile : option string) (touchItems verbose : bool) :
  forall c s1,
    primaryAction w item updateFile touchItems verbose initial = (c, s1) ->
    (exists e, c = Raised e)
    \/ exists r,
         items (st_outcome s1) = [r]
         /\ r = record_of item (rec_action r) (rec_result r)
         /\ (success (st_outcome s1) = PBool false ->
             exists text, rec_result r = PStr text)
         /\ (success (st_outcome s1) = PNone
             \/ exists b, success (st_outcome s1) = PBool b)
         /\ (c = Normal tt \/ c = Returned (st_outcome s1)).
Proof.
  intros c s1 H.
  remember (primaryAction w item updateFile touchItems verbose initial)
    as r eqn:Hr.
  unfold primaryAction, updateFromSource, initial in Hr.
  exec_primary Hr.
  all: try (use_download Hr; exec_primary Hr).
  all: close_records.
Qed.

Lemma view_records_are_touches (w : World) (views : list Item) :
  Forall (fun r => rec_action r = PStr "touch") (map (view_record w) views).
Proof. induction views; cbn; constructor; auto. Qed.

Lemma returned_outcome_records (w : World) (item : Item)
    (updateFile : option string) (touchItems verbose : bool) (o : Outcome) :
  fst (overwriteFeatureService w item updateFile touchItems verbose)
  = Result o ->
  exists r rest,
    items o = r :: rest
    /\ r = record_of item (rec_action r) (rec_result r)
    /\ Forall (fun v => rec_action v = PStr "touch") rest
    /\ (success o <> PBool true -> rest = [])
    /\ (success o = PBool false -> exists text, rec_result r = PStr text)
    /\ (success o = PNone \/ exists b, success o = PBool b).
Proof.
  unfold overwriteFeatureService, body, cascade. cbv beta delta [bind].
  destruct (primaryAction w item updateFile touchItems verbose initial)
    as [c s1] eqn:E.
  destruct (primaryAction_records w item updateFile touchItems verbose c s1 E)
    as [(e & ->) | (r & Hitems & Hr & Htext & Hsucc & Hc)].
  - cbn. discriminate.
  - destruct s1 as [[succ its] tr]. cbn [st_outcome items success] in *.
    subst its.
    destruct Hc as [-> | ->].
    + cbv beta iota zeta delta [get_success when ret return_outcome].
      cbn [st_outcome success].
      destruct (touchItems && eq_True succ)%bool eqn:Hgo.
      * rewrite touchViews_run.
        destruct (item_related_items item "Service2Service") as [views | e];
          cbn [fst snd st_outcome success items app]; [| discriminate].
        intros H. injection H as <-. cbn [items success].
        exists r, (map (view_record w) views).
        split; [reflexivity |]. split; [exact Hr |].
        split; [apply view_records_are_touches |].
        split; [| split; [| exact Hsucc]].
        -- intros Hne. apply andb_prop in Hgo. destruct Hgo as (_ & Hgo).
           destruct Hsucc as [-> | ([] & ->)]; try discriminate.
           contradiction Hne. reflexivity.
        -- intros Hf. subst succ. cbn in Hgo.
           rewrite andb_false_r in Hgo. discriminate.
      * cbn. intros H. injection H as <-. cbn [items success].
        exists r, []. repeat split; auto.
    + cbn. intros H. injection H as <-. cbn [items success].
      exists r, []. repeat split; auto.
Qed.

(** X13. Every outcome the function returns opens with a record about the
    item itself; the records after it are touch records of views, and there
    are none unless the overall success is [True]; and when the overall
    success is [False] the result of that first record is a text, so that
    the caller who reports [outcome["items"][0]["result"]] on failure always
    finds a message there. *)
Theorem outcome_opens_with_the_item (w : World) (item : Item)
    (updateFile : option string) (touchItems verbose : bool) (o : Outcome) :
  fst (overwriteFeatureService w item updateFile touchItems verbose)
  = Result o ->
  exists r rest,
    items o = r :: rest
    /\ r = record_of item (rec_action r) (rec_result r)
    /\ Forall (fun v => rec_action v = PStr "touch") rest
    /\ (success o <> PBool true -> rest = [])
    /\ (success o = PBool false -> exists text, rec_result r = PStr text).
Proof.
  intros H.
  destruct (returned_outcome_records w item updateFile touchItems verbose o H)
    as (r & rest & H1 & H2 & H3 & H4 & H5 & _).
  exists r, rest. auto.
Qed.

Lemma outcome_opens_with_the_item_witness :
  fst (overwriteFeatureService sample_world roads_service
         (Some "roads.csv") true false)
  = Result (mkOutcome (PBool false)
              [record_of roads_service (PStr "verify")
                 (PStr "Update Filename 'roads.csv' does NOT match Original Filename used to Publish Service: 'roads.zip'")])
  /\ exists r rest,
       [record_of roads_service (PStr "verify")
          (PStr "Update Filename 'roads.csv' does NOT match Original Filename used to Publish Service: 'roads.zip'")]
       = r :: rest
       /\ r = record_of roads_service (rec_action r) (rec_result r).
Proof.
  refine (conj eq_refl _).
  destruct (outcome_opens_with_the_item sample_world roads_service
              (Some "roads.csv") true false _ eq_refl)
    as (r & rest & H1 & H2 & _).
  exists r, rest. exact (conj H1 H2).
Defined.

(** *** What [verbose] changes *)

Lemma touch_trace_actions (w : World) (verbose : bool) (item : Item)
    (message : string) :
  filter is_action (touch_trace w verbose item message)
  = [EvItemUpdate (item_id item)].
Proof. unfold touch_trace. destruct verbose; reflexivity. Qed.

Lemma overwrite_trace_actions (w : World) (verbose : bool) (item : Item)
    (manager : Manager) (path : string) :
  filter is_action (overwrite_trace w verbose item manager path)
  = [EvOverwrite path].
Proof. unfold overwrite_trace. destruct verbose; reflexivity. Qed.

Lemma cascade_trace_actions (w : World) (verbose : bool) (views : list Item) :
  filter is_action (cascade_trace w verbose views)
  = map (fun view => EvItemUpdate (item_id view)) views.
Proof.
  unfold cascade_trace. induction views as [| view views IH];
    [reflexivity |].
  cbn [flat_map map]. rewrite filter_app, IH, touch_trace_actions.
  reflexivity.
Qed.

Ltac exec_both H1 H2 :=
  repeat (run_monad_in H1; run_monad_in H2;
          rewrite ?print_each_run, ?touchItem_run, ?performOverwrite_run,
            ?touchViews_run in H1;
          rewrite ?print_each_run, ?touchItem_run, ?performOverwrite_run,
            ?touchViews_run in H2;
          try first [split_on_answer H1 | split_on_answer H2]);
  run_monad_in H1; run_monad_in H2.

Ltac actions_of_trace :=
  rewrite <- ?app_assoc; cbn [app];
  repeat (cbn [filter is_action is_print negb app];
          rewrite ?filter_app, ?touch_trace_actions, ?overwrite_trace_actions,
            ?cascade_trace_actions, ?prints_filtered by reflexivity).

Lemma verbose_run_acts_alike (w : World) (item : Item)
    (updateFile : option string) (touchItems verbose : bool) :
  fst (overwriteFeatureService w item updateFile touchItems verbose)
  = fst (overwriteFeatureService w item updateFile touchItems false)
  /\ filter is_action
       (snd (overwriteFeatureService w item updateFile touchItems verbose))
     = filter is_action
         (snd (overwriteFeatureService w item updateFile touchItems false)).
Proof.
  destruct verbose; [| split; reflexivity].
  unfold overwriteFeatureService. cbv zeta.
  remember (body w item updateFile touchItems true initial) as r1 eqn:H1.
  remember (body w item updateFile touchItems false initial) as r2 eqn:H2.
  unfold body, primaryAction, updateFromSource, downloadWebData, cascade,
    initial in H1, H2.
  exec_both H1 H2.
  all: subst r1 r2; cbn [fst snd st_trace st_outcome success items] in *.
  all: try congruence.
  all: repeat match goal with
              | H : Returns _ = Returns _ |- _ => injection H as H; subst
              | H : Raises _ = Raises _ |- _ => injection H as H; subst
              | H : Some _ = Some _ |- _ => injection H as H; subst
              end.
  all: (split; [reflexivity |]).
  all: actions_of_trace; reflexivity.
Qed.

Lemma touch_trace_silent (w : World) (item : Item) (message : string) :
  Forall (fun e => is_print e = false) (touch_trace w false item message).
Proof. unfold touch_trace. cbn. repeat constructor. Qed.

Lemma overwrite_trace_silent (w : World) (item : Item) (manager : Manager)
    (path : string) :
  Forall (fun e => is_print e = false)
    (overwrite_trace w false item manager path).
Proof. unfold overwrite_trace. cbn. repeat constructor. Qed.

Lemma cascade_trace_silent (w : World) (views : list Item) :
  Forall (fun e => is_print e = false) (cascade_trace w false views).
Proof.
  unfold cascade_trace. induction views as [| view views IH]; cbn.
  - constructor.
  - constructor; [reflexivity | exact IH].
Qed.

Lemma silent_run_prints_nothing (w : World) (item : Item)
    (updateFile : option string) (touchItems : bool) :
  Forall (fun e => is_print e = false)
    (snd (overwriteFeatureService w item updateFile touchItems false)).
Proof.
  unfold overwriteFeatureService. cbv zeta.
  remember (body w item updateFile touchItems false initial) as r eqn:Hr.
  unfold body, primaryAction, updateFromSource, downloadWebData, cascade,
    initial in Hr.
  repeat (run_monad_in Hr;
          rewrite ?touchItem_run, ?performOverwrite_run, ?touchViews_run in Hr;
          try split_on_answer Hr);
    run_monad_in Hr; subst r; cbn [snd st_trace].
  all: repeat first
         [ apply touch_trace_silent
         | apply overwrite_trace_silent
         | apply cascade_trace_silent
         | apply Forall_nil
         | apply Forall_cons; [reflexivity |]
         | apply Forall_app; split ].
Qed.

(** X14. [verbose] only adds printing.  A run with [verbose] true returns
    what the run with [verbose] false returns, and what it does (every
    call on the catalog, the file system and the network, every assignment
    to the overall success, in order) is what the silent run does; the
    silent run prints nothing. *)
Theorem verbose_only_adds_printing (w : World) (item : Item)
    (updateFile : option string) (touchItems verbose : bool) :
  fst (overwriteFeatureService w item updateFile touchItems verbose)
  = fst (overwriteFeatureService w item updateFile touchItems false)
  /\ filter is_action
       (snd (overwriteFeatureService w item updateFile touchItems verbose))
     = snd (overwriteFeatureService w item updateFile touchItems false)
  /\ Forall (fun e => is_print e = false)
       (snd (overwriteFeatureService w item updateFile touchItems false)).
Proof.
  destruct (verbose_run_acts_alike w item updateFile touchItems verbose)
    as (Hres & Hact).
  pose proof (silent_run_prints_nothing w item updateFile touchItems)
    as Hsilent.
  repeat split; [exact Hres | | exact Hsilent].
  rewrite Hact. clear Hact Hres.
  induction Hsilent as [| e tr He _ IH]; [reflexivity |].
  cbn. unfold is_action at 1. rewrite He. cbn. now rewrite IH.
Qed.

(** *** The script *)

Import Script.
Local Open Scope list_scope.

Ltac run_script :=
  cbv beta iota zeta delta
      [and_then pure emit say exit uncaught answer ask usage
       is_True is_False is_None negb andb orb];
  cbn [fst snd].

Ltac run_script_in H :=
  cbv beta iota zeta delta
      [and_then pure emit say exit uncaught answer ask usage
       is_True is_False is_None negb andb orb] in H;
  cbn [fst snd] in H.

Ltac split_script_on_answer H :=
  match type of H with
  | context [match ?x with _ => _ end] =>
      lazymatch x with
      | context [match _ with _ => _ end] => fail
      | _ =>
          lazymatch type of x with
          | (_ * list script_event)%type => fail
          | _ => destruct x eqn:?
          end
      end
  end.

Ltac exec_script H :=
  repeat (run_script_in H; try split_script_on_answer H);
  run_script_in H.

Lemma function_events_app (a b : list script_event) :
  function_events (a ++ b) = function_events a ++ function_events b.
Proof. unfold function_events. apply flat_map_app. Qed.

Lemma function_events_wrapped (tr : list event) :
  function_events (map ScFunction tr) = tr.
Proof.
  unfold function_events. induction tr as [| e tr IH]; cbn;
    [reflexivity | now rewrite IH].
Qed.

Lemma function_events_In (tr : list script_event) (e : event) :
  In (ScFunction e) tr -> In e (function_events tr).
Proof.
  unfold function_events. intros H. apply in_flat_map.
  exists (ScFunction e). cbn. auto.
Qed.

Ltac function_events_of_trace :=
  rewrite <- ?app_assoc; cbn [app];
  repeat (cbn [function_events flat_map app];
          rewrite ?flat_map_app);
  fold function_events;
  rewrite ?function_events_wrapped, ?app_nil_r.

Lemma run_function_cases (w : World) (item : Item)
    (updateFile : option string) (tr : list script_event) :
  snd (run_function w item updateFile tr)
  = tr ++ map ScFunction
            (snd (overwriteFeatureService w item updateFile true true))
  /\ fst (run_function w item updateFile tr)
     = match fst (overwriteFeatureService w item updateFile true true) with
       | Exception e => Uncaught e
       | Result o =>
           match success o, items o with
           | PBool false, r :: _ =>
               match rec_result r with
               | PStr text => Exit (nl ++ bel ++ " * ERROR * " ++ text)%string
               | _ => Continue tt
               end
           | _, _ => Continue tt
           end
       end.
Proof.
  unfold run_function. cbv zeta.
  destruct (fst (overwriteFeatureService w item updateFile true true))
    as [o | e] eqn:E; [| split; reflexivity].
  destruct (returned_outcome_records w item updateFile true true o E)
    as (r & rest & Hitems & _ & _ & _ & Htext & Hsucc).
  rewrite Hitems.
  destruct Hsucc as [Hs | ([] & Hs)]; rewrite Hs; cbn; try (split; reflexivity).
  destruct (Htext Hs) as (text & ->). split; reflexivity.
Qed.

Ltac close_script_case :=
  first
    [ left; split; [reflexivity | discriminate]
    | right; eexists; eexists; eexists;
      split; [first [left; reflexivity | right; reflexivity] |];
      split; [eassumption |];
      split; [apply String.eqb_eq; assumption |];
      split; [| unfold source_argument;
                match goal with
                | H : (_ <? _)%nat = _ |- _ => rewrite H
                end; reflexivity];
      reflexivity ].

Lemma script_cases (w : World) (h : Host) (argv : list string) :
  (function_events (snd (main w h argv)) = []
   /\ fst (main w h argv) <> Continue tt)
  \/ exists gis item before,
       (login_with_profile h (nth 1 argv ""%string) = Returns gis
        \/ login_with_pro h = Returns gis)
       /\ content_get gis (nth 2 argv ""%string) = Returns (Some item)
       /\ item_title item = nth 3 argv ""%string
       /\ function_events before = []
       /\ main w h argv = run_function w item (source_argument argv) before.
Proof.
  remember (main w h argv) as r eqn:Hr.
  unfold main, script, login_profile, login_pro in Hr.
  exec_script Hr.
  all: subst r; cbn [fst snd].
  all: close_script_case.
Qed.

(** X15. With fewer than three arguments the script prints its usage,
    seven lines, and exits with the error about insufficient parameters;
    it touches no file, loads no SDK and reaches no catalog. *)
Theorem too_few_arguments_print_the_usage (w : World) (h : Host)
    (argv : list string) :
  (List.length argv < 4)%nat ->
  fst (main w h argv)
  = Exit (nl ++ bel
          ++ " * ERROR * Insufficient Input Parameters, please review 'Usage'!")%string
  /\ List.length (snd (main w h argv)) = 7%nat
  /\ Forall (fun e => exists line, e = ScPrint line) (snd (main w h argv)).
Proof.
  intros H. apply Nat.ltb_lt in H. unfold main, script. run_script.
  rewrite H. run_script. cbn [app List.length].
  repeat split. repeat (constructor; [eexists; reflexivity |]). constructor.
Qed.

Lemma too_few_arguments_print_the_usage_witness :
  (List.length ["OverwriteFS.py"%string; "editor"%string] < 4)%nat
  /\ fst (main sample_world (sample_host None) ["OverwriteFS.py"%string; "editor"%string])
     = Exit (nl ++ bel
             ++ " * ERROR * Insufficient Input Parameters, please review 'Usage'!")%string.
Proof.
  assert (H : (List.length ["OverwriteFS.py"%string; "editor"%string] < 4)%nat)
    by (cbn; lia).
  exact (conj H (proj1 (too_few_arguments_print_the_usage sample_world
                          (sample_host None) _ H))).
Defined.

(** X16. A local update file that does not exist stops the script before
    the SDK is loaded: after the test of the path and the five lines of the
    banner it exits with "Unable to locate Update File", and nothing else
    is done.  The banner announces the missing file as "None, Touch item &
    views only!": the text " (NOT Found!)" of line 257 is never printed. *)
Theorem missing_update_file_stops_before_login (w : World) (h : Host)
    (file profile itemId itemTitle given : string) (rest : list string) :
  given <> ""%string ->
  is_url given = false ->
  os_path_exists w given = false ->
  main w h (file :: profile :: itemId :: itemTitle :: given :: rest)
  = (Exit (nl ++ bel ++ " * ERROR * Unable to locate Update File '" ++ given
           ++ "' *")%string,
     [ScPathExists given;
      ScPrint (nl ++ "           Running: " ++ script_file h ++ ", "
               ++ "v1.4.4")%string;
      ScPrint ("Python API Profile: " ++ profile
               ++ (if String.eqb (lower profile) "pro"
                   then " (using active ArcGIS Pro connection)" else ""))%string;
      ScPrint (" Target FS Item ID: " ++ itemId)%string;
      ScPrint (" Target Item Title: '" ++ itemTitle
               ++ "' (for verification)")%string;
      ScPrint "   Upload Filename: None, Touch item & views only!"]).
Proof.
  intros Hgiven Hurl Hexists. apply String.eqb_neq in Hgiven.
  unfold main, script, upload_banner, supplied, no_filename.
  cbn [List.length Nat.ltb Nat.leb nth]. run_script.
  rewrite Hurl. run_script. rewrite Hexists. run_script.
  cbn [fst snd filename_text]. rewrite Hgiven. run_script.
  destruct (String.eqb (lower profile) "pro"); reflexivity.
Qed.

Lemma missing_update_file_stops_before_login_witness :
  is_url "roads.zip" = false
  /\ os_path_exists sample_world "roads.zip" = false
  /\ fst (main sample_world (sample_host (Some roads_service))
            ["OverwriteFS.py"; "editor"; "s1"; "Roads"; "roads.zip"]%string)
     = Exit (nl ++ bel ++ " * ERROR * Unable to locate Update File '"
             ++ "roads.zip" ++ "' *")%string.
Proof.
  refine (conj eq_refl (conj eq_refl _)).
  refine (f_equal fst
            (missing_update_file_stops_before_login sample_world
               (sample_host (Some roads_service)) "OverwriteFS.py" "editor"
               "s1" "Roads" "roads.zip" [] _ eq_refl eq_refl)).
  discriminate.
Defined.

Ltac decide_In H :=
  cbn [In app] in H;
  repeat match type of H with
         | _ \/ _ => destruct H as [H | H]
         | False => destruct H
         | _ = _ => try discriminate H; try (injection H as H; discriminate H)
         end.

(** X17. When the profile is not "pro" and the SDK offers neither of the
    two password functions, the script never logs in: [gis] is bound only
    inside the branch that found one.  No connection is opened and no
    catalog call is made; once the SDK is loaded ("Ready!" is printed) the
    run ends at the item lookup with the uncaught error that the name
    [gis] is not defined. *)
Theorem no_password_function_means_no_login (w : World) (h : Host)
    (argv : list string) :
  lower (nth 1 argv ""%string) <> "pro"%string ->
  has_gis_password_function h = false ->
  has_profile_manager h = false ->
  Forall (fun e => is_catalog_step e = false) (snd (main w h argv))
  /\ fst (main w h argv) <> Continue tt
  /\ (In (ScPrint ("Ready!" ++ nl)%string) (snd (main w h argv)) ->
      fst (main w h argv) = Uncaught "name 'gis' is not defined").
Proof.
  intros Hpro Hgis Hmgr. apply String.eqb_neq in Hpro.
  remember (main w h argv) as r eqn:Hr.
  unfold main, script, login_profile in Hr.
  repeat (run_script_in Hr; rewrite ?Hpro, ?Hgis, ?Hmgr in Hr;
          try split_script_on_answer Hr);
    run_script_in Hr; subst r; cbn [fst snd].
  all: split; [| split; [discriminate |]].
  all: try solve [repeat first [ apply Forall_nil
                               | apply Forall_cons; [reflexivity |]
                               | apply Forall_app; split ]].
  all: try reflexivity.
  all: intros Hin; exfalso; decide_In Hin.
Qed.

Lemma no_password_function_means_no_login_witness :
  lower (nth 1 ["OverwriteFS.py"; "editor"; "s1"; "Roads"]%string ""%string)
  <> "pro"%string
  /\ main sample_world (bare_host (Some roads_service))
       ["OverwriteFS.py"; "editor"; "s1"; "Roads"]%string
     = (Uncaught "name 'gis' is not defined",
        [ScPrint (nl ++ "           Running: OverwriteFS.py, v1.4.4")%string;
         ScPrint "Python API Profile: editor";
         ScPrint " Target FS Item ID: s1";
         ScPrint " Target Item Title: 'Roads' (for verification)";
         ScPrint "   Upload Filename: None, Touch item & views only!";
         ScPrintNoNewline (nl ++ "Loading Python API...")%string;
         ScImport;
         ScPrint ("Ready!" ++ nl)%string;
         ScPrint " - Cannot check password for Python API v1.5.0, unable to securely get password!";
         ScPrint " - Checking item..."]).
Proof.
  assert (H : lower (nth 1 ["OverwriteFS.py"; "editor"; "s1"; "Roads"]%string
                       ""%string) <> "pro"%string) by (cbv; discriminate).
  refine (conj H _).
  pose proof (proj2 (proj2 (no_password_function_means_no_login sample_world
                              (bare_host (Some roads_service))
                              ["OverwriteFS.py"; "editor"; "s1"; "Roads"]%string
                              H eq_refl eq_refl))) as Hend.
  assert (Hin : In (ScPrint ("Ready!" ++ nl)%string)
                   (snd (main sample_world (bare_host (Some roads_service))
                           ["OverwriteFS.py"; "editor"; "s1"; "Roads"]%string))).
  { vm_compute. repeat first [left; reflexivity | right]. }
  specialize (Hend Hin).
  destruct (main sample_world (bare_host (Some roads_service))
              ["OverwriteFS.py"; "editor"; "s1"; "Roads"]%string)
    as [ending tr] eqn:E.
  cbn [fst] in Hend. subst ending.
  vm_compute in E. injection E as <-. reflexivity.
Defined.

(** X18. The script runs the function on nothing but the item it has
    verified: whenever a run reaches [overwriteFeatureService], the item
    was returned by the content lookup of the connection for the identifier
    given as second argument, its title equals the third argument, and
    the function is called once, with the update source of the command
    line, [touchItems] left at [True] and [verbose] set. *)
Theorem script_acts_on_the_verified_item (w : World) (h : Host)
    (argv : list string) (e : event) :
  In (ScFunction e) (snd (main w h argv)) ->
  exists gis item,
    (login_with_profile h (nth 1 argv ""%string) = Returns gis
     \/ login_with_pro h = Returns gis)
    /\ content_get gis (nth 2 argv ""%string) = Returns (Some item)
    /\ item_title item = nth 3 argv ""%string
    /\ function_events (snd (main w h argv))
       = snd (overwriteFeatureService w item (source_argument argv) true true).
Proof.
  intros Hin. apply function_events_In in Hin.
  destruct (script_cases w h argv)
    as [(Hnone & _) | (gis & item & before & Hlogin & Hget & Htitle & Hb & E)].
  - rewrite Hnone in Hin. destruct Hin.
  - exists gis, item. repeat split; auto.
    rewrite E.
    rewrite (proj1 (run_function_cases w item (source_argument argv) before)).
    rewrite function_events_app, Hb, function_events_wrapped. reflexivity.
Qed.

(** X19. How the script ends once it has called the function.  An error
    the function raises is not caught.  When the outcome has success
    [False] the script exits with " * ERROR * " followed by the result of
    the first record, which is always there and always a text.  When the
    success is [True] or [None] (nothing to fetch, nothing to do) the script
    ends normally. *)
Theorem script_reports_a_failed_outcome (w : World) (h : Host)
    (argv : list string) (e : event) :
  In (ScFunction e) (snd (main w h argv)) ->
  exists item,
    item_title item = nth 3 argv ""%string
    /\ function_events (snd (main w h argv))
       = snd (overwriteFeatureService w item (source_argument argv) true true)
    /\ match fst (overwriteFeatureService w item (source_argument argv)
                    true true) with
       | Exception raised => fst (main w h argv) = Uncaught raised
       | Result o =>
           (success o = PBool false ->
            exists first rest text,
              items o = first :: rest
              /\ rec_result first = PStr text
              /\ fst (main w h argv)
                 = Exit (nl ++ bel ++ " * ERROR * " ++ text)%string)
           /\ (success o = PBool true \/ success o = PNone ->
               fst (main w h argv) = Continue tt)
       end.
Proof.
  intros Hin. apply function_events_In in Hin.
  destruct (script_cases w h argv)
    as [(Hnone & _) | (gis & item & before & Hlogin & Hget & Htitle & Hb & E)].
  - rewrite Hnone in Hin. destruct Hin.
  - exists item. split; [exact Htitle |].
    destruct (run_function_cases w item (source_argument argv) before)
      as (Htr & Hend).
    rewrite E. split.
    + rewrite Htr, function_events_app, Hb, function_events_wrapped.
      reflexivity.
    + rewrite Hend.
      destruct (fst (overwriteFeatureService w item (source_argument argv)
                       true true)) as [o | raised] eqn:Ef; [| reflexivity].
      destruct (returned_outcome_records w item (source_argument argv)
                  true true o Ef)
        as (r & rest & Hitems & _ & _ & _ & Htext & _).
      split.
      * intros Hs. destruct (Htext Hs) as (text & Ht).
        exists r, rest, text. rewrite Hs, Hitems, Ht. auto.
      * intros [Hs | Hs]; rewrite Hs; reflexivity.
Qed.

(** X20. Run without a filename, or with an empty one, the script never
    overwrites the service: whatever the function does then is printing,
    relationship queries, item updates and assignments to the overall
    success. *)
Theorem script_without_a_file_only_touches (w : World) (h : Host)
    (argv : list string) :
  (List.length argv < 5)%nat \/ nth 4 argv ""%string = ""%string ->
  Forall (fun e => is_touch_mode_event e = true)
    (function_events (snd (main w h argv))).
Proof.
  intros Hfile.
  assert (Hsup : supplied (source_argument argv) = false).
  { unfold source_argument.
    destruct (List.length argv <? 5)%nat eqn:Hlen; [reflexivity |].
    destruct Hfile as [Hlt | ->]; [| reflexivity].
    apply Nat.ltb_lt in Hlt. congruence. }
  destruct (script_cases w h argv)
    as [(Hnone & _) | (gis & item & before & _ & _ & _ & Hb & E)].
  - rewrite Hnone. constructor.
  - rewrite E.
    rewrite (proj1 (run_function_cases w item (source_argument argv) before)).
    rewrite function_events_app, Hb, function_events_wrapped.
    apply no_source_trace. exact Hsup.
Qed.

Lemma script_acts_on_the_verified_item_witness :
  In (ScFunction (EvItemUpdate "s1"))
     (snd (main sample_world (sample_host (Some roads_service))
             ["OverwriteFS.py"; "editor"; "s1"; "Roads"]%string))
  /\ exists gis item,
       (login_with_profile (sample_host (Some roads_service))
          (nth 1 ["OverwriteFS.py"; "editor"; "s1"; "Roads"]%string ""%string)
        = Returns gis
        \/ login_with_pro (sample_host (Some roads_service)) = Returns gis)
       /\ content_get gis
            (nth 2 ["OverwriteFS.py"; "editor"; "s1"; "Roads"]%string ""%string)
          = Returns (Some item)
       /\ item_title item
          = nth 3 ["OverwriteFS.py"; "editor"; "s1"; "Roads"]%string ""%string
       /\ function_events
            (snd (main sample_world (sample_host (Some roads_service))
                    ["OverwriteFS.py"; "editor"; "s1"; "Roads"]%string))
          = snd (overwriteFeatureService sample_world item
                   (source_argument
                      ["OverwriteFS.py"; "editor"; "s1"; "Roads"]%string)
                   true true).
Proof.
  assert (Hin : In (ScFunction (EvItemUpdate "s1"))
                   (snd (main sample_world (sample_host (Some roads_service))
                           ["OverwriteFS.py"; "editor"; "s1"; "Roads"]%string))).
  { vm_compute. repeat first [left; reflexivity | right]. }
  exact (conj Hin
           (script_acts_on_the_verified_item sample_world
              (sample_host (Some roads_service))
              ["OverwriteFS.py"; "editor"; "s1"; "Roads"]%string
              (EvItemUpdate "s1") Hin)).
Defined.

Lemma script_reports_a_failed_outcome_witness :
  In (ScFunction (EvSetSuccess (PBool false)))
     (snd (main sample_world (sample_host (Some roads_map))
             ["OverwriteFS.py"; "editor"; "s1"; "Roads map"]%string))
  /\ fst (main sample_world (sample_host (Some roads_map))
            ["OverwriteFS.py"; "editor"; "s1"; "Roads map"]%string)
     = Exit (nl ++ bel ++ " * ERROR * "
             ++ "Item Type is NOT a 'Feature Service'")%string
  /\ exists item,
       item_title item
       = nth 3 ["OverwriteFS.py"; "editor"; "s1"; "Roads map"]%string ""%string
       /\ function_events
            (snd (main sample_world (sample_host (Some roads_map))
                    ["OverwriteFS.py"; "editor"; "s1"; "Roads map"]%string))
          = snd (overwriteFeatureService sample_world item
                   (source_argument
                      ["OverwriteFS.py"; "editor"; "s1"; "Roads map"]%string)
                   true true).
Proof.
  assert (Hin : In (ScFunction (EvSetSuccess (PBool false)))
                   (snd (main sample_world (sample_host (Some roads_map))
                           ["OverwriteFS.py"; "editor"; "s1"; "Roads map"]%string))).
  { vm_compute. repeat first [left; reflexivity | right]. }
  refine (conj Hin (conj eq_refl _)).
  destruct (script_reports_a_failed_outcome sample_world
              (sample_host (Some roads_map))
              ["OverwriteFS.py"; "editor"; "s1"; "Roads map"]%string
              (EvSetSuccess (PBool false)) Hin) as (item & Htitle & Hev & _).
  exists item. exact (conj Htitle Hev).
Defined.

Lemma script_without_a_file_only_touches_witness :
  (List.length ["OverwriteFS.py"; "editor"; "s1"; "Roads"]%string < 5)%nat
  /\ Forall (fun e => is_touch_mode_event e = true)
       (function_events
          (snd (main sample_world (sample_host (Some roads_service))
                  ["OverwriteFS.py"; "editor"; "s1"; "Roads"]%string))).
Proof.
  assert (H : (List.length ["OverwriteFS.py"; "editor"; "s1"; "Roads"]%string
               < 5)%nat) by (cbn; lia).
  exact (conj H
           (script_without_a_file_only_touches sample_world
              (sample_host (Some roads_service))
              ["OverwriteFS.py"; "editor"; "s1"; "Roads"]%string
              (or_introl H))).
Defined.
